(** * Leaflet draw-shapes: the merge engine and the draw layer

    A shallow embedding of [src/helpers/merge.js] and of the [DrawLayer]
    class (the first of the two sources of the class, the one that
    registers its listeners with [DomEvent]), with the properties the
    specification states about them.  The helper modules [./polygon],
    [./layer] and [./flags] are not among the sources; what is needed of
    them is modelled from the specification and marked so.

    JavaScript objects that are mutated in place (the map object with its
    symbol-keyed properties, the [polygons] WeakMap entry of the map, the
    closures a pointer-down creates) live in one explicit [World]; code
    that calls into them is written in a state-and-exception monad [M]. *)

From Stdlib Require Import ZArith QArith List Bool Lia String.
Import ListNotations.
Local Open Scope Z_scope.

(** ** JavaScript values and control *)

(** What a [throw] carries.  [TypeError] is the runtime's own (calling a
    property that is [undefined]), [LibraryError] a plain [Error] thrown
    inside an imported library; the others are the error kinds the
    specification names. *)
Inductive Error : Type :=
| TypeError
| InsufficientPointsError
| DegeneratePolygonError
| HullConstructionError
| InvalidRingError
| CapacityExceededError
| InvalidConfigurationError
| LibraryError.

(** The outcome of a call that may throw. *)
Inductive Result (A : Type) : Type :=
| Ok (a : A)
| Thrown (e : Error).
Arguments Ok {A} a.
Arguments Thrown {A} e.

Definition bindR {A B : Type} (r : Result A) (k : A -> Result B) : Result B :=
  match r with
  | Ok a => k a
  | Thrown e => Thrown e
  end.

Declare Scope js_scope.
Delimit Scope js_scope with js.
Notation "'let!' x ':=' r 'in' k" := (bindR r (fun x => k))
  (at level 10, x name, r at level 100, k at level 200) : js_scope.

(** A JavaScript number as the options use it: a finite value or
    [Infinity] (the default of [maximumPolygons]). *)
Inductive JsNumber : Type :=
| Finite (q : Q)
| Infinity.

(** [ToInt32]: the wrap-around both operands of [&] and [^] go through. *)
Definition toInt32 (z : Z) : Z := (z + 2 ^ 31) mod 2 ^ 32 - 2 ^ 31.

(** [a & b] and [a ^ b] on integral numbers. *)
Definition bitAnd (a b : Z) : Z := Z.land (toInt32 a) (toInt32 b).
Definition bitXor (a b : Z) : Z := Z.lxor (toInt32 a) (toInt32 b).

(** ** Coordinates and polygons *)

(** [L.LatLng]; coordinates are kept on an exact integer grid. *)
Record LatLng : Type := { lat : Z; lng : Z }.

(** [L.Point]: a container or layer point in pixels. *)
Record Point : Type := { x : Z; y : Z }.

(** A Clipper point [{X, Y}] and a Clipper path. *)
Record IntPoint : Type := { X : Z; Y : Z }.
Definition Path : Type := list IntPoint.

(** Clipper's fill rules. *)
Inductive PolyFillType : Type := pftEvenOdd | pftNonZero | pftPositive | pftNegative.

(** A GeoJSON position [[lat, lng]] as [latLngsToTuple] builds it. *)
Definition Tuple : Type := (Z * Z)%type.

(** A Leaflet polygon object.  [pid] is the object's identity (what
    [Object.is] compares); [getLatLngs0] is [polygon.getLatLngs()[0]]. *)
Record Polygon : Type := { pid : nat; getLatLngs0 : list LatLng }.

(** [Object.is(a, b)] on polygon objects. *)
Definition Object_is (a b : Polygon) : bool := Nat.eqb (pid a) (pid b).

(** ** Options *)

Record DrawLayerOptions : Type := {
  mode : Z;
  smoothFactor : JsNumber;
  elbowDistance : JsNumber;
  simplifyFactor : JsNumber;
  mergePolygons : bool;
  concavePolygon : bool;
  maximumPolygons : JsNumber;
  notifyAfterEditExit : bool;
  leaveModeAfterCreate : bool;
  strokeWidth : JsNumber
}.

(** [Partial<DrawLayerOptions>]: [None] is a key the object does not have. *)
Module Partial.
Record t : Type := {
  mode : option Z;
  smoothFactor : option JsNumber;
  elbowDistance : option JsNumber;
  simplifyFactor : option JsNumber;
  mergePolygons : option bool;
  concavePolygon : option bool;
  maximumPolygons : option JsNumber;
  notifyAfterEditExit : option bool;
  leaveModeAfterCreate : option bool;
  strokeWidth : option JsNumber
}.

(** The object literal [{}]. *)
Definition empty : t :=
  {| mode := None; smoothFactor := None; elbowDistance := None;
     simplifyFactor := None; mergePolygons := None; concavePolygon := None;
     maximumPolygons := None; notifyAfterEditExit := None;
     leaveModeAfterCreate := None; strokeWidth := None |}.
End Partial.

(** One key of an object spread: the later object wins when it has the key. *)
Definition override {A : Type} (base : A) (over : option A) : A :=
  match over with
  | Some v => v
  | None => base
  end.

(** [{ ...base, ...over }]. *)
Definition spread (base : DrawLayerOptions) (over : Partial.t) : DrawLayerOptions :=
  {| mode := override (mode base) (Partial.mode over);
     smoothFactor := override (smoothFactor base) (Partial.smoothFactor over);
     elbowDistance := override (elbowDistance base) (Partial.elbowDistance over);
     simplifyFactor := override (simplifyFactor base) (Partial.simplifyFactor over);
     mergePolygons := override (mergePolygons base) (Partial.mergePolygons over);
     concavePolygon := override (concavePolygon base) (Partial.concavePolygon over);
     maximumPolygons := override (maximumPolygons base) (Partial.maximumPolygons over);
     notifyAfterEditExit :=
       override (notifyAfterEditExit base) (Partial.notifyAfterEditExit over);
     leaveModeAfterCreate :=
       override (leaveModeAfterCreate base) (Partial.leaveModeAfterCreate over);
     strokeWidth := override (strokeWidth base) (Partial.strokeWidth over) |}.

(** ** The world: the map object and what hangs off it *)

(** [map[cancelKey]]: not a property of the map, the empty function
    [() => {}], or the closure [() => mouseUp({}, false)] of one drag. *)
Inductive CancelSlot : Type :=
| SlotAbsent
| SlotNoop
| SlotSession (sid : nat).

(** What one [mouseDown] allocates: the [linePoints] set (each member is
    a fresh [LatLng] object, so the set never merges two of them), the
    [lastPoint] variable of [createPath], and whether the [mouseMove] and
    [mouseUp] closures of this drag are still registered as listeners. *)
Record Session : Type := {
  linePoints : list LatLng;
  lastPoint : Point;
  listening : bool
}.

(** Calls into the helper modules and the stages of the create pipeline,
    recorded in the order they happen. *)
Inductive Event : Type :=
| CallCreateFor (latLngs : list LatLng) (options : DrawLayerOptions)
                (preventMutations : bool)
| CallRemoveFor (polygon : Polygon)
| CallUpdateFor (reason : string)
| CallModeFor (mode : Z)
| CallMerge (polygons : list Polygon)
| StageSimplify
| StageConcave.

Record World : Type := {
  polygons : list Polygon;   (* polygons.get(map), in insertion order *)
  nextId : nat;              (* identity of the next [new Polygon] *)
  modes : Z;                 (* map[modesKey] *)
  cancelSlot : CancelSlot;   (* map[cancelKey] *)
  sessions : list Session;   (* the drags begun so far, by index *)
  svg : list (Point * Point);(* the preview paths appended to the svg *)
  log : list Event           (* most recent last *)
}.

Definition with_polygons (ps : list Polygon) (w : World) : World :=
  {| polygons := ps; nextId := nextId w; modes := modes w;
     cancelSlot := cancelSlot w; sessions := sessions w; svg := svg w;
     log := log w |}.

Definition with_nextId (n : nat) (w : World) : World :=
  {| polygons := polygons w; nextId := n; modes := modes w;
     cancelSlot := cancelSlot w; sessions := sessions w; svg := svg w;
     log := log w |}.

Definition with_modes (m : Z) (w : World) : World :=
  {| polygons := polygons w; nextId := nextId w; modes := m;
     cancelSlot := cancelSlot w; sessions := sessions w; svg := svg w;
     log := log w |}.

Definition with_cancelSlot (c : CancelSlot) (w : World) : World :=
  {| polygons := polygons w; nextId := nextId w; modes := modes w;
     cancelSlot := c; sessions := sessions w; svg := svg w; log := log w |}.

Definition with_sessions (ss : list Session) (w : World) : World :=
  {| polygons := polygons w; nextId := nextId w; modes := modes w;
     cancelSlot := cancelSlot w; sessions := ss; svg := svg w; log := log w |}.

Definition with_svg (s : list (Point * Point)) (w : World) : World :=
  {| polygons := polygons w; nextId := nextId w; modes := modes w;
     cancelSlot := cancelSlot w; sessions := sessions w; svg := s;
     log := log w |}.

Definition with_log (l : list Event) (w : World) : World :=
  {| polygons := polygons w; nextId := nextId w; modes := modes w;
     cancelSlot := cancelSlot w; sessions := sessions w; svg := svg w;
     log := l |}.

(** ** The monad of code that runs against the world

    A computation takes the world and either runs out of call depth
    ([None]; only the mutual recursion of [createFor] and [merge] can) or
    ends, normally or by a [throw], in a new world.  A [throw] keeps the
    mutations made before it. *)
Definition M (A : Type) : Type := World -> option (Result A * World).

Definition ret {A : Type} (a : A) : M A := fun w => Some (Ok a, w).

Definition throw {A : Type} (e : Error) : M A := fun w => Some (Thrown e, w).

Definition liftR {A : Type} (r : Result A) : M A := fun w => Some (r, w).

Definition bind {A B : Type} (m : M A) (k : A -> M B) : M B :=
  fun w =>
    match m w with
    | None => None
    | Some (Ok a, w') => k a w'
    | Some (Thrown e, w') => Some (Thrown e, w')
    end.

Definition gets {A : Type} (f : World -> A) : M A := fun w => Some (Ok (f w), w).

Definition modify (f : World -> World) : M unit := fun w => Some (Ok tt, f w).

Definition tell (ev : Event) : M unit :=
  modify (fun w => with_log (log w ++ [ev]) w).

Notation "x <- m ;; k" := (bind m (fun x => k))
  (at level 61, m at next level, right associativity) : js_scope.
Notation "m ;;; k" := (bind m (fun _ => k))
  (at level 61, right associativity) : js_scope.

Local Open Scope js_scope.

(** [array.forEach(f)]. *)
Fixpoint forEach {A : Type} (f : A -> M unit) (l : list A) : M unit :=
  match l with
  | [] => ret tt
  | a :: l' => f a ;;; forEach f l'
  end.

(** [array.flatMap(f)]. *)
Fixpoint flatMap {A B : Type} (f : A -> M (list B)) (l : list A) : M (list B) :=
  match l with
  | [] => ret []
  | a :: l' => bs <- f a ;; rest <- flatMap f l' ;; ret (bs ++ rest)
  end.

(** [array.some(f)] with a callback that may throw: it stops at the
    first element the callback accepts. *)
Fixpoint some {A : Type} (f : A -> Result bool) (l : list A) : Result bool :=
  match l with
  | [] => Ok false
  | a :: l' => let! b := f a in if b then Ok true else some f l'
  end.

(** [array.reduce(f, init)] with a callback that may throw. *)
Fixpoint reduce {A B : Type} (f : B -> A -> Result B) (l : list A) (acc : B)
  : Result B :=
  match l with
  | [] => Ok acc
  | a :: l' => let! acc' := f acc a in reduce f l' acc'
  end.

(** ** What the sources import

    The libraries ([turf-polygon], [@turf/intersect], [clipper-lib],
    Leaflet's projections) and the constants and functions of helper
    modules that the embedded code uses as black boxes. *)
Record Imports : Type := {
  (* turf: a GeoJSON feature, [createPolygon(coordinates)] on the array
     [merge.js] hands over (its entries are positions, or [undefined]),
     [isIntersecting(a, b)] (the intersection feature, or null) *)
  Feature : Type;
  createPolygon : list (option Tuple) -> Result Feature;
  isIntersecting : Feature -> Feature -> Result (option Feature);
  (* clipper-lib *)
  SimplifyPolygons : list Path -> PolyFillType -> Result (list Path);
  (* ./simplify: the conversion [merge] uses, and the Simplifier *)
  latLngsToClipperPoints : list LatLng -> Result Path;
  simplifyPolygon : list LatLng -> JsNumber -> Result (list LatLng);
  (* the Concave Hull component, [concave(ring)] *)
  concave : list LatLng -> Result (list LatLng);
  (* leaflet *)
  layerPointToLatLng : Point -> LatLng;
  containerPointToLatLng : Point -> LatLng;
  latLngToContainerPoint : LatLng -> Point;
  (* ./flags *)
  CREATE : Z;
  ALL : Z
}.

(** ** [src/helpers/merge.js] *)

Section Merge.

Variable env : Imports.

(** [createFor] and [removeFor] of [./polygon], as [merge] calls them. *)
Variable createFor : list LatLng -> DrawLayerOptions -> bool -> M (list Polygon).
Variable removeFor : Polygon -> M unit.

Definition latLngsToTuple (latLngs : list LatLng) : list Tuple :=
  map (fun model => (lat model, lng model)) latLngs.

(** [createPolygon([...x, x[0]])]: the argument is the array of the
    positions itself, closed by its first entry; [x[0]] is [undefined]
    on an empty [x]. *)
Definition toTurfPolygon (lagLngs : list LatLng) : Result (Feature env) :=
  let x := latLngsToTuple lagLngs in
  createPolygon env (map Some x ++ [hd_error x]).

(** The accumulator of the [reduce]. *)
Record Analysis : Type := {
  intersecting : list Path;
  rest : list (list LatLng);
  intersectingPolygons : list Polygon
}.

(** [Boolean(v)] of a feature or null. *)
Definition Boolean {A : Type} (v : option A) : bool :=
  match v with
  | Some _ => true
  | None => false
  end.

(** The [intersects] constant of one turn of the [reduce]. *)
Definition intersectsOthers (polygons : list Polygon) (polygon : Polygon)
  (turfPolygon : Feature env) : Result bool :=
  some
    (fun other =>
       let! otherTurf := toTurfPolygon (getLatLngs0 other) in
       let! hit := isIntersecting env turfPolygon otherTurf in
       Ok (Boolean hit))
    (filter (fun item => negb (Object_is item polygon)) polygons).

(** The callback of the [reduce]. *)
Definition analyse1 (polygons : list Polygon) (accum : Analysis)
  (polygon : Polygon) : Result Analysis :=
  let latLngs := getLatLngs0 polygon in
  let! points := latLngsToClipperPoints env (getLatLngs0 polygon) in
  let! turfPolygon := toTurfPolygon latLngs in
  let! intersects := intersectsOthers polygons polygon turfPolygon in
  Ok (if intersects
      then {| intersecting := intersecting accum ++ [points];
              rest := rest accum;
              intersectingPolygons := intersectingPolygons accum ++ [polygon] |}
      else {| intersecting := intersecting accum;
              rest := rest accum ++ [latLngs];
              intersectingPolygons := intersectingPolygons accum |}).

(** [const analysis = polygons.reduce(...)]. *)
Definition analyse (polygons : list Polygon) : Result Analysis :=
  reduce (analyse1 polygons) polygons
    {| intersecting := []; rest := []; intersectingPolygons := [] |}.

(** [new Point(model.X, model.Y)]. *)
Definition newPoint (model : IntPoint) : Point := {| x := X model; y := Y model |}.

(** The default export.  Its first line is not in the source: it
    records the call in the log. *)
Definition merge (polygons : list Polygon) (options : DrawLayerOptions)
  : M (list Polygon) :=
  tell (CallMerge polygons) ;;;
  analysis <- liftR (analyse polygons) ;;
  mergePolygons <-
    liftR (SimplifyPolygons env (intersecting analysis) pftNonZero) ;;
  forEach removeFor (intersectingPolygons analysis) ;;;
  flatMap
    (fun polygon =>
       let latLngs :=
         map (fun model => layerPointToLatLng env (newPoint model)) polygon in
       createFor latLngs options true)
    mergePolygons.

End Merge.

(** ** [src/helpers/merge.js]: [fillPolygon] *)

Section FillPolygon.

Variable env : Imports.

(** [Clipper.SimplifyPolygon(path, fillType)]: it returns the simplified
    paths and leaves its argument as it is. *)
Variable SimplifyPolygon : Path -> PolyFillType -> Result (list Path).

(** [createFor] and [removeFor] of [./polygon], as [fillPolygon] calls them. *)
Variable createFor : list LatLng -> DrawLayerOptions -> bool -> M (list Polygon).
Variable removeFor : Polygon -> M unit.

(** [fillPolygon(map, polygon, options)].  The source calls
    [Clipper.SimplifyPolygon] as a statement: what it returns is dropped,
    and the [latLngs] are built from [points]. *)
Definition fillPolygon (polygon : Polygon) (options : DrawLayerOptions) : M unit :=
  points <- liftR (latLngsToClipperPoints env (getLatLngs0 polygon)) ;;
  liftR (SimplifyPolygon points pftNonZero) ;;;
  removeFor polygon ;;;
  let latLngs :=
    map (fun model => layerPointToLatLng env (newPoint model)) points in
  createFor latLngs options true ;;;
  ret tt.

End FillPolygon.

(** ** The helper modules [./polygon], [./layer] and [./flags] *)

Section Helpers.

Variable env : Imports.

(** [set.add(polygon)]: a Set keeps one entry per object. *)
Definition setAdd (polygon : Polygon) (set : list Polygon) : list Polygon :=
  if existsb (Object_is polygon) set then set else set ++ [polygon].

(** [set.delete(polygon)]. *)
Definition setDelete (polygon : Polygon) (set : list Polygon) : list Polygon :=
  filter (fun item => negb (Object_is item polygon)) set.

(** Modelled from the spec: the step of [createFor] that makes the
    polygon ("each output ring becomes one new Polygon", "the candidate
    is stored"): a new object, hence a new identity, added to the set of
    the map. *)
Definition addPolygon (latLngs : list LatLng) : M Polygon :=
  fun w =>
    let polygon := {| pid := nextId w; getLatLngs0 := latLngs |} in
    Some (Ok polygon,
          with_polygons (setAdd polygon (polygons w))
            (with_nextId (S (nextId w)) w)).

(** Modelled from the spec: [removeFor] of [./helpers/polygon], which is
    not among the sources.  "removes one identity from the store; no-op
    (not an error) if already absent". *)
Definition removeFor (polygon : Polygon) : M unit :=
  tell (CallRemoveFor polygon) ;;;
  modify (fun w => with_polygons (setDelete polygon (polygons w)) w).

(** Modelled from the spec: [clearFor] of [./helpers/polygon], which is
    not among the sources.  "removes all polygons from the store". *)
Definition clearFor : M unit :=
  modify (with_polygons []).

(** Modelled from the spec: [updateFor] of [./helpers/layer], which is not
    among the sources.  It notifies the collaborators of the polygon set
    with a reason code; here the notification is the log entry. *)
Definition updateFor (reason : string) : M unit :=
  tell (CallUpdateFor reason).

(** Modelled from the spec: [modeFor] of [./helpers/flags], which is not
    among the sources.  "set atomically via setMode(surface, newMask)". *)
Definition modeFor (mode : Z) (options : DrawLayerOptions) : M unit :=
  tell (CallModeFor mode) ;;;
  modify (with_modes mode).

(** "if the store would exceed the cap": one more polygon than [size]
    is more than [cap]. *)
Definition exceedsCap (size : nat) (cap : JsNumber) : bool :=
  match cap with
  | Infinity => false
  | Finite q => negb (Qle_bool (inject_Z (Z.of_nat (S size))) q)
  end.

(** "caller falls back to the unmodified Ring" on [HullConstructionError]. *)
Definition concaveOrFallback (ring : list LatLng) : Result (list LatLng) :=
  match concave env ring with
  | Thrown HullConstructionError => Ok ring
  | r => r
  end.

(** Modelled from the spec: [createFor] of [./helpers/polygon], which is
    not among the sources.  Its signature is the one [merge] and
    [DrawLayer] call it with.  With [preventMutations] (the flag [merge]
    passes, "prevent any merging") "each output ring becomes one new
    Polygon".  Otherwise it is the create pipeline: the capacity check
    ("fails with CapacityExceededError and performs no mutation"),
    "Simplifier -> (optional) Concave Hull -> Merge Engine -> store
    update".  The candidate is in the store when [merge] runs, because
    [merge] takes the polygons of the map and removes the intersecting
    ones from it.  The call depth [fuel] bounds the recursion through
    [merge]. *)
Fixpoint createFor (fuel : nat) (latLngs : list LatLng)
  (options : DrawLayerOptions) (preventMutations : bool) : M (list Polygon) :=
  match fuel with
  | O => fun _ => None
  | S fuel' =>
      tell (CallCreateFor latLngs options preventMutations) ;;;
      if preventMutations then
        polygon <- addPolygon latLngs ;;
        ret [polygon]
      else
        size <- gets (fun w => List.length (polygons w)) ;;
        if exceedsCap size (maximumPolygons options) then
          throw CapacityExceededError
        else
          tell StageSimplify ;;;
          simplified <-
            liftR (simplifyPolygon env latLngs (simplifyFactor options)) ;;
          ring <-
            (if concavePolygon options
             then tell StageConcave ;;; liftR (concaveOrFallback simplified)
             else ret simplified) ;;
          polygon <- addPolygon ring ;;
          if mergePolygons options then
            all <- gets polygons ;;
            merged <- merge env (createFor fuel') removeFor all options ;;
            ret (match merged with
                 | [] => [polygon]
                 | _ => merged
                 end)
          else ret [polygon]
  end.

(** The depth of [createFor -> merge -> createFor]. *)
Definition callDepth : nat := 2.

End Helpers.

(** ** The [DrawLayer] class *)

(** [list[i] = f(list[i])] for an index the list has. *)
Fixpoint adjust {A : Type} (i : nat) (f : A -> A) (l : list A) : list A :=
  match l, i with
  | [], _ => []
  | a :: l', O => f a :: l'
  | a :: l', S i' => a :: adjust i' f l'
  end.

Module DrawLayer.

Section Class.

Variable env : Imports.

Definition defaultOptions : DrawLayerOptions :=
  {| mode := ALL env;
     smoothFactor := Finite (3 # 10);
     elbowDistance := Finite 10;
     simplifyFactor := Finite (11 # 10);
     mergePolygons := true;
     concavePolygon := true;
     maximumPolygons := Infinity;
     notifyAfterEditExit := false;
     leaveModeAfterCreate := false;
     strokeWidth := Finite 2 |}.

(** An options object seen as a partial one: it has every key. *)
Definition allKeys (o : DrawLayerOptions) : Partial.t :=
  {| Partial.mode := Some (mode o);
     Partial.smoothFactor := Some (smoothFactor o);
     Partial.elbowDistance := Some (elbowDistance o);
     Partial.simplifyFactor := Some (simplifyFactor o);
     Partial.mergePolygons := Some (mergePolygons o);
     Partial.concavePolygon := Some (concavePolygon o);
     Partial.maximumPolygons := Some (maximumPolygons o);
     Partial.notifyAfterEditExit := Some (notifyAfterEditExit o);
     Partial.leaveModeAfterCreate := Some (leaveModeAfterCreate o);
     Partial.strokeWidth := Some (strokeWidth o) |}.

(** The fields of an instance: [this.options] and whether [this.map] is
    set (it is [null] until [onAdd]). *)
Record t : Type := {
  this_options : DrawLayerOptions;
  this_map : bool
}.

(** [new DrawLayer(options)]; an omitted argument is [defaultOptions]. *)
Definition constructor (options : option Partial.t) : Result t :=
  let options := match options with
                 | Some o => o
                 | None => allKeys defaultOptions
                 end in
  Ok {| this_options := spread defaultOptions options; this_map := false |}.

(** [onAdd(map)], up to the point where the listeners are registered. *)
Definition onAdd (this : t) : M t :=
  modify (with_cancelSlot SlotNoop) ;;;
  modify (with_polygons []) ;;;
  modeFor (mode (this_options this)) (this_options this) ;;;
  modify (with_svg []) ;;;
  ret {| this_options := this_options this; this_map := true |}.

(** [{ concavePolygon: false }], the default of the parameter [options]
    of [create]. *)
Definition createDefault : Partial.t :=
  {| Partial.mode := None; Partial.smoothFactor := None;
     Partial.elbowDistance := None; Partial.simplifyFactor := None;
     Partial.mergePolygons := None;
     Partial.concavePolygon := Some false;
     Partial.maximumPolygons := None;
     Partial.notifyAfterEditExit := None;
     Partial.leaveModeAfterCreate := None;
     Partial.strokeWidth := None |}.

(** [create(polygon, options = { concavePolygon: false })]; [None] is an
    omitted argument, and a result of [None] is [undefined]. *)
Definition create (this : t) (polygon : list LatLng) (options : option Partial.t)
  : M (option (list Polygon)) :=
  let options := override createDefault options in
  if negb (this_map this) then ret None
  else
    created <-
      createFor env callDepth polygon (spread (this_options this) options) false ;;
    updateFor "create" ;;;
    ret (Some created).

Definition removePolygon (this : t) (polygon : Polygon) : M unit :=
  if negb (this_map this) then ret tt
  else
    removeFor polygon ;;;
    updateFor "remove".

Definition clear (this : t) : M unit :=
  if negb (this_map this) then ret tt
  else
    clearFor ;;;
    updateFor "clear".

(** [mode(mode = null)]: the argument [None] is [null]; the result
    [None] is [undefined]. *)
Definition mode (this : t) (mode : option Z) : M (option Z) :=
  if negb (this_map this) then ret None
  else
    match mode with
    | Some m => modeFor m (this_options this)
    | None => ret tt
    end ;;;
    current <- gets modes ;;
    ret (Some current).

Definition size (this : t) : M nat :=
  if negb (this_map this) then ret O
  else gets (fun w => List.length (polygons w)).

Definition all (this : t) : M (list Polygon) :=
  if negb (this_map this) then ret []
  else gets polygons.

(** [DomEvent.off] of the two closures of a drag. *)
Definition stopListening (s : Session) : Session :=
  {| linePoints := linePoints s; lastPoint := lastPoint s; listening := false |}.

(** The [linePoints] a drag's closures share. *)
Definition linePointsOf (sid : nat) (w : World) : list LatLng :=
  match nth_error (sessions w) sid with
  | Some s => linePoints s
  | None => []
  end.

(** The closure [mouseUp] of the drag [sid]; [create] defaults to [true]
    when a pointer event calls it. *)
Definition mouseUp (this : t) (sid : nat) (create : bool) : M unit :=
  let options := this_options this in
  modify (with_cancelSlot SlotNoop) ;;;
  modify (fun w => with_sessions (adjust sid stopListening (sessions w)) w) ;;;
  modify (with_svg []) ;;;
  if create then
    points <- gets (linePointsOf sid) ;;
    match points with
    | [] => ret tt
    | _ => createFor env callDepth points options false ;;; ret tt
    end ;;;
    updateFor "create" ;;;
    if leaveModeAfterCreate options then
      current <- mode this None ;;
      mode this (Some (bitXor (override 0 current) (CREATE env))) ;;;
      ret tt
    else ret tt
  else ret tt.

(** The closure [mouseMove] of the drag [sid]; the event carries its
    container point. *)
Definition mouseMove (sid : nat) (event : Point) : M unit :=
  let point := event in
  previous <-
    gets (fun w => match nth_error (sessions w) sid with
                   | Some s => lastPoint s
                   | None => point
                   end) ;;
  modify (fun w =>
            with_sessions
              (adjust sid
                 (fun s =>
                    {| linePoints :=
                         linePoints s ++ [containerPointToLatLng env point];
                       lastPoint := point;
                       listening := listening s |})
                 (sessions w))
              w) ;;;
  modify (fun w => with_svg (svg w ++ [(previous, point)]) w).

(** The listener [mouseDown]. *)
Definition mouseDown (this : t) (event : Point) : M unit :=
  current <- gets modes ;;
  if bitAnd current (CREATE env) =? 0 then ret tt
  else
    let point := containerPointToLatLng env event in
    sid <- gets (fun w => List.length (sessions w)) ;;
    modify (fun w =>
              with_sessions
                (sessions w ++
                 [{| linePoints := [];
                     lastPoint := latLngToContainerPoint env point;
                     listening := true |}])
                w) ;;;
    modify (with_cancelSlot (SlotSession sid)).

(** [cancel()]: calls whatever [map[cancelKey]] holds. *)
Definition cancel (this : t) : M unit :=
  if negb (this_map this) then ret tt
  else
    slot <- gets cancelSlot ;;
    match slot with
    | SlotAbsent => throw TypeError
    | SlotNoop => ret tt
    | SlotSession sid => mouseUp this sid false
    end.

End Class.

End DrawLayer.

(** ** An instance of the imports: rings on the unit grid

    For rings whose vertices are integers and whose edges are parallel to
    the axes, the interior is a set of unit cells: two such rings overlap
    exactly when they share a cell, and a union can be checked cell by
    cell.  The turf functions of the instance answer as the packages of
    [package.json] ([turf-polygon] 1.0.3, [@turf/intersect] 6.5) answer
    to what [merge.js] hands them.  The examples below run the embedded
    code against this instance. *)
Module Grid.

(** A ring as [(x, y)] vertices; the last vertex joins the first. *)
Definition Ring : Type := list (Z * Z).

Definition edgesOf (ring : Ring) : list ((Z * Z) * (Z * Z)) :=
  combine ring (tl ring ++ firstn 1 ring).

(** The contribution of the edge [a -> b] to the winding number of the
    point [(px, py)]: +1 for an upward edge with the point on its left,
    -1 for a downward edge with the point on its right.  The point is a
    cell centre in doubled coordinates, so it lies on no vertex level. *)
Definition crossing (px py : Z) (a b : Z * Z) : Z :=
  let ax := 2 * fst a in
  let ay := 2 * snd a in
  let bx := 2 * fst b in
  let by_ := 2 * snd b in
  let side := (bx - ax) * (py - ay) - (px - ax) * (by_ - ay) in
  if (ay <=? py) && (py <? by_) && (0 <? side) then 1
  else if (by_ <=? py) && (py <? ay) && (side <? 0) then -1
  else 0.

(** The winding number of the ring around the centre of the cell
    [[i, i+1] x [j, j+1]]. *)
Definition winding (ring : Ring) (cell : Z * Z) : Z :=
  let px := 2 * fst cell + 1 in
  let py := 2 * snd cell + 1 in
  fold_left (fun acc e => acc + crossing px py (fst e) (snd e)) (edgesOf ring) 0.

(** The cell is filled by the paths under the non-zero rule. *)
Definition filled (paths : list Ring) (cell : Z * Z) : bool :=
  negb (fold_left (fun acc ring => acc + winding ring cell) paths 0 =? 0).

Definition range (lo hi : Z) : list Z :=
  map (fun k => lo + Z.of_nat k) (seq 0 (Z.to_nat (hi - lo))).

Definition minimum (l : list Z) : Z := fold_left Z.min l (hd 0 l).
Definition maximum (l : list Z) : Z := fold_left Z.max l (hd 0 l).

(** The cells of the bounding box of the rings. *)
Definition cellsOf (rings : list Ring) : list (Z * Z) :=
  let xs := map fst (List.concat rings) in
  let ys := map snd (List.concat rings) in
  list_prod (range (minimum xs) (maximum xs)) (range (minimum ys) (maximum ys)).

(** A cell both rings fill, if there is one. *)
Definition commonCell (a b : Ring) : option (Z * Z) :=
  find (fun cell => filled [a] cell && filled [b] cell) (cellsOf [a]).

Definition ringOfPath (path : Path) : Ring := map (fun p => (X p, Y p)) path.
Definition pathOfRing (ring : Ring) : Path :=
  map (fun v => {| X := fst v; Y := snd v |}) ring.

(** The entries of an array that has no [undefined] entry. *)
Fixpoint positions (coordinates : list (option Tuple)) : option (list Tuple) :=
  match coordinates with
  | [] => Some []
  | None :: _ => None
  | Some p :: coordinates' =>
      match positions coordinates' with
      | Some ps => Some (p :: ps)
      | None => None
      end
  end.

(** [turf-polygon]: the feature of a Polygon whose [coordinates] are the
    array given.  It counts no positions and refuses no short array; it
    reads a property of the entries it looks at, which is a [TypeError]
    on [undefined]. *)
Definition polygonFeature (coordinates : list (option Tuple))
  : Result (list Tuple) :=
  match positions coordinates with
  | Some ps => Ok ps
  | None => Thrown TypeError
  end.

(** [@turf/intersect] reads the [coordinates] of a Polygon as an array of
    linear rings.  The features above hold the array of the positions
    where it looks for the rings, and on every pair of them it throws
    ("Input geometry is not a valid Polygon or MultiPolygon"). *)
Definition intersect (a b : list Tuple) : Result (option (list Tuple)) :=
  Thrown LibraryError.


(** Two overlapping squares. *)
Definition ringA : Ring := [(0, 0); (2, 0); (2, 2); (0, 2)].
Definition ringB : Ring := [(1, 1); (3, 1); (3, 3); (1, 3)].
(** A square away from all of the above. *)
Definition ringC : Ring := [(10, 10); (12, 10); (12, 12); (10, 12)].

(** No two of the rings share a cell. *)
Fixpoint pairwiseApart (rings : list Ring) : bool :=
  match rings with
  | [] => true
  | ring :: rings' =>
      forallb (fun other => match commonCell ring other with
                            | Some _ => false
                            | None => true
                            end) rings'
      && pairwiseApart rings'
  end.

(** [Clipper.SimplifyPolygons] on the grid: no path in, no path out,
    which is all [merge] asks of it here, since an analysis that returns
    on this instance has found no intersecting polygon.  Paths of which
    no two share a cell are their own union; the instance has no answer
    for others. *)
Definition simplifyPolygons (paths : list Path) (fill : PolyFillType)
  : Result (list Path) :=
  if pairwiseApart (map ringOfPath paths) then Ok paths
  else Thrown LibraryError.

Definition imports : Imports :=
  {| Feature := list Tuple;
     createPolygon := polygonFeature;
     isIntersecting := intersect;
     SimplifyPolygons := simplifyPolygons;
     latLngsToClipperPoints :=
       fun latLngs => Ok (map (fun m => {| X := lng m; Y := lat m |}) latLngs);
     simplifyPolygon :=
       fun latLngs factor =>
         if (List.length latLngs <? 3)%nat then Thrown InsufficientPointsError
         else Ok latLngs;
     concave := fun latLngs => Ok latLngs;
     layerPointToLatLng := fun p => {| lat := y p; lng := x p |};
     containerPointToLatLng := fun p => {| lat := y p; lng := x p |};
     latLngToContainerPoint := fun m => {| x := lng m; y := lat m |};
     CREATE := 1;
     ALL := 15 |}.

(** The ring as the [LatLng]s of a polygon. *)
Definition latLngsOf (ring : Ring) : list LatLng :=
  map (fun v => {| lat := snd v; lng := fst v |}) ring.

(** A map the layer has been added to: [polygons] on it, every mode on. *)
Definition world (polygons : list Polygon) (modes : Z) : World :=
  {| polygons := polygons;
     nextId := List.length polygons;
     modes := modes;
     cancelSlot := SlotNoop;
     sessions := [];
     svg := [];
     log := [] |}.

Definition layer : DrawLayer.t :=
  {| DrawLayer.this_options := DrawLayer.defaultOptions imports;
     DrawLayer.this_map := true |}.

(** The world after a pointer-down at the origin on the empty map. *)
Definition dragging : World :=
  with_cancelSlot (SlotSession 0)
    (with_sessions
       [{| linePoints := []; lastPoint := {| x := 0; y := 0 |};
           listening := true |}]
       (world [] 15)).

(** The layer with [leaveModeAfterCreate] on. *)
Definition leavingLayer : DrawLayer.t :=
  {| DrawLayer.this_options :=
       spread (DrawLayer.defaultOptions imports)
         {| Partial.mode := None; Partial.smoothFactor := None;
            Partial.elbowDistance := None; Partial.simplifyFactor := None;
            Partial.mergePolygons := None; Partial.concavePolygon := None;
            Partial.maximumPolygons := None;
            Partial.notifyAfterEditExit := None;
            Partial.leaveModeAfterCreate := Some true;
            Partial.strokeWidth := None |};
     DrawLayer.this_map := true |}.

(** The world of a drag that began at the origin and has one move. *)
Definition shortDrag : World :=
  with_cancelSlot (SlotSession 0)
    (with_sessions
       [{| linePoints := [{| lat := 0; lng := 2 |}];
           lastPoint := {| x := 2; y := 0 |};
           listening := true |}]
       (world [] 15)).

(** Polygon objects on the rings above. *)
Definition polygonA : Polygon := {| pid := 0; getLatLngs0 := latLngsOf ringA |}.
Definition polygonB : Polygon := {| pid := 1; getLatLngs0 := latLngsOf ringB |}.
Definition polygonC : Polygon := {| pid := 2; getLatLngs0 := latLngsOf ringC |}.
(** A polygon whose ring has no point. *)
Definition pointless (id : nat) : Polygon := {| pid := id; getLatLngs0 := [] |}.

End Grid.

(** * Notions the properties are stated with *)

Section Notions.

Variable env : Imports.

(** What one turn of the [reduce] decides about its polygon. *)
Definition classify (polygons : list Polygon) (polygon : Polygon) : Result bool :=
  let! points := latLngsToClipperPoints env (getLatLngs0 polygon) in
  let! turfPolygon := toTurfPolygon env (getLatLngs0 polygon) in
  intersectsOthers env polygons polygon turfPolygon.

(** The same as a boolean, for the runs in which nothing throws. *)
Definition intersectsb (polygons : list Polygon) (polygon : Polygon) : bool :=
  match classify polygons polygon with
  | Ok b => b
  | Thrown _ => false
  end.



(** The first two statements of [merge]: the analysis, then the union. *)
Definition geometry (polygons : list Polygon) : Result (Analysis * list Path) :=
  let! analysis := analyse env polygons in
  let! mergePolygons := SimplifyPolygons env (intersecting analysis) pftNonZero in
  Ok (analysis, mergePolygons).

(** The conversion of one Clipper path back to [LatLng]s. *)
Definition toLatLngs (polygon : Path) : list LatLng :=
  map (fun model => layerPointToLatLng env (newPoint model)) polygon.

(** The polygon objects created from [rings], the first with identity [n]. *)
Fixpoint newPolygons (n : nat) (rings : list (list LatLng)) : list Polygon :=
  match rings with
  | [] => []
  | ring :: rings' => {| pid := n; getLatLngs0 := ring |} :: newPolygons (S n) rings'
  end.

(** The store without the objects of [gone]. *)
Definition without (gone : list Polygon) (set : list Polygon) : list Polygon :=
  filter (fun q => forallb (fun p => negb (Object_is q p)) gone) set.

(** The world when [merge] returns. *)
Definition afterMerge (ps : list Polygon) (options : DrawLayerOptions)
  (a : Analysis) (m : list Path) (w : World) : World :=
  {| polygons :=
       fold_left (fun set p => setAdd p set)
         (newPolygons (nextId w) (map toLatLngs m))
         (without (intersectingPolygons a) (polygons w));
     nextId := (nextId w + List.length m)%nat;
     modes := modes w;
     cancelSlot := cancelSlot w;
     sessions := sessions w;
     svg := svg w;
     log :=
       log w ++
       CallMerge ps ::
       map CallRemoveFor (intersectingPolygons a) ++
       map (fun ring => CallCreateFor ring options true) (map toLatLngs m) |}.

(** The world with one more log entry. *)
Definition logged (ev : Event) (w : World) : World :=
  with_log (log w ++ [ev]) w.

(** The world once the candidate on [ring] is in the store. *)
Definition withCandidate (ring : list LatLng) (w : World) : World :=
  with_polygons
    (setAdd {| pid := nextId w; getLatLngs0 := ring |} (polygons w))
    (with_nextId (S (nextId w)) w).

(** The ring the pipeline hands to the store, with the stages logged. *)
Definition pipeline (latLngs : list LatLng) (options : DrawLayerOptions)
  (w : World) : Result (list LatLng) * World :=
  let w1 := logged StageSimplify w in
  match simplifyPolygon env latLngs (simplifyFactor options) with
  | Thrown e => (Thrown e, w1)
  | Ok simplified =>
      if concavePolygon options
      then (concaveOrFallback env simplified, logged StageConcave w1)
      else (Ok simplified, w1)
  end.

(** [createFor] without [preventMutations], call by call. *)
Definition createRun (latLngs : list LatLng) (options : DrawLayerOptions)
  (w : World) : option (Result (list Polygon) * World) :=
  let w0 := logged (CallCreateFor latLngs options false) w in
  if exceedsCap (List.length (polygons w)) (maximumPolygons options)
  then Some (Thrown CapacityExceededError, w0)
  else
    match pipeline latLngs options w0 with
    | (Thrown e, w1) => Some (Thrown e, w1)
    | (Ok ring, w1) =>
        let candidate := {| pid := nextId w1; getLatLngs0 := ring |} in
        let w2 := withCandidate ring w1 in
        if mergePolygons options then
          match geometry (polygons w2) with
          | Thrown e =>
              Some (Thrown e, logged (CallMerge (polygons w2)) w2)
          | Ok (a, m) =>
              let merged := newPolygons (nextId w2) (map toLatLngs m) in
              Some (Ok (match merged with
                        | [] => [candidate]
                        | _ => merged
                        end),
                    afterMerge (polygons w2) options a m w2)
          end
        else Some (Ok [candidate], w2)
    end.

End Notions.

(** Inside one run of [merge], after its own entry: no further entry of
    [merge], and every [createFor] is called with [preventMutations]. *)
Definition withinOnePass (ev : Event) : Prop :=
  match ev with
  | CallMerge _ => False
  | CallCreateFor _ _ preventMutations => preventMutations = true
  | _ => True
  end.


(** A number below zero. *)
Definition negative (v : option JsNumber) : bool :=
  match v with
  | Some (Finite q) => negb (Qle_bool 0 q)
  | _ => false
  end.

(** A configuration the specification calls invalid. *)
Definition invalidConfiguration (options : Partial.t) : bool :=
  negative (Partial.maximumPolygons options)
  || negative (Partial.simplifyFactor options)
  || negative (Partial.elbowDistance options)
  || negative (Partial.smoothFactor options).

(** The options [{ maximumPolygons: -1 }]. *)
Definition negativeCap : Partial.t :=
  {| Partial.mode := None; Partial.smoothFactor := None;
     Partial.elbowDistance := None; Partial.simplifyFactor := None;
     Partial.mergePolygons := None; Partial.concavePolygon := None;
     Partial.maximumPolygons := Some (Finite (-1));
     Partial.notifyAfterEditExit := None;
     Partial.leaveModeAfterCreate := None; Partial.strokeWidth := None |}.

(** Closes a goal whose hypothesis [H] puts an event in a log it is not in. *)
Ltac not_in_log H :=
  repeat match type of H with
         | _ = _ => discriminate H
         | False => contradiction
         | _ \/ _ => destruct H as [H | H]
         | In _ (_ ++ _) => apply in_app_or in H
         | In _ (map _ _) => apply in_map_iff in H; destruct H as (? & H & _)
         | In _ (_ :: _) => destruct H as [H | H]
         | In _ [] => destruct H
         end.

(** ** Notions for the pointer handlers *)

(** What [mouseUp] does first, whatever its [create] argument is: the
    cancel key is reset, the listeners of the drag are removed, and the
    preview is cleared. *)
Definition closeDrag (sid : nat) (w : World) : World :=
  with_svg []
    (with_sessions (adjust sid DrawLayer.stopListening (sessions w))
       (with_cancelSlot SlotNoop w)).

(** The preview segments of a pointer that starts at [from] and visits
    [events]: each begins where the one before ended. *)
Fixpoint segments (from : Point) (events : list Point) : list (Point * Point) :=
  match events with
  | [] => []
  | point :: events' => (from, point) :: segments point events'
  end.

(** The drag [s] after the moves [events]. *)
Definition moved (env : Imports) (s : Session) (events : list Point) : Session :=
  {| linePoints := linePoints s ++ map (containerPointToLatLng env) events;
     lastPoint := last events (lastPoint s);
     listening := listening s |}.

(** The objects of the store that are not [polygon], then the polygons
    [new]. *)
Definition replaced (polygon : Polygon) (new : list Polygon) (w : World)
  : list Polygon :=
  setDelete polygon (polygons w) ++ new.

(** An event that [createFor] and [merge] log themselves: not a
    notification and not a change of mode. *)
Definition quiet (ev : Event) : Prop :=
  match ev with
  | CallUpdateFor _ => False
  | CallModeFor _ => False
  | _ => True
  end.

(** An event other than a call of [createFor] without
    [preventMutations]: the calls that [merge] makes have the flag, the
    calls of the layer do not. *)
Definition noFurtherCreate (ev : Event) : Prop :=
  match ev with
  | CallCreateFor _ _ false => False
  | _ => True
  end.

(** One drag as the browser delivers it: the pointer-down, the moves
    and the pointer-up, the latter two to the closures of the drag that
    the pointer-down began (the next index of [sessions]). *)
Definition drag (env : Imports) (this : DrawLayer.t) (down : Point)
  (events : list Point) : M unit :=
  fun w =>
    let sid := List.length (sessions w) in
    (DrawLayer.mouseDown env this down ;;;
     forEach (DrawLayer.mouseMove env sid) events ;;;
     DrawLayer.mouseUp env this sid true) w.

(** What [mouseUp] does after a creation that returned: the
    notification, and with [leaveModeAfterCreate] the change of mode. *)
Definition finishDrag (env : Imports) (this : DrawLayer.t) (w : World) : World :=
  let notified := logged (CallUpdateFor "create") w in
  if leaveModeAfterCreate (DrawLayer.this_options this) then
    let left := bitXor (modes notified) (CREATE env) in
    with_modes left (logged (CallModeFor left) notified)
  else notified.

(** Closes a goal that says the events of a log are all [quiet]. *)
Ltac quiet_events :=
  repeat first
    [ apply Forall_nil
    | apply Forall_cons; [exact I|]
    | apply Forall_app; split
    | apply Forall_forall;
      let ev := fresh "ev" in
      let Hev := fresh "Hev" in
      intros ev Hev; apply in_map_iff in Hev as (? & <- & _); exact I ].

(** * Properties *)

(** ** Arrays with callbacks that may throw *)



(** ** The analysis of [merge] *)

Section AnalysisFacts.

Variable env : Imports.

Lemma analyse1_classify (ps : list Polygon) (acc a : Analysis) (p : Polygon) :
  analyse1 env ps acc p = Ok a ->
  exists b pts,
    classify env ps p = Ok b /\
    latLngsToClipperPoints env (getLatLngs0 p) = Ok pts /\
    a = (if b
         then {| intersecting := intersecting acc ++ [pts];
                 rest := rest acc;
                 intersectingPolygons := intersectingPolygons acc ++ [p] |}
         else {| intersecting := intersecting acc;
                 rest := rest acc ++ [getLatLngs0 p];
                 intersectingPolygons := intersectingPolygons acc |}).
Proof.
  unfold analyse1, classify. intros H.
  destruct (latLngsToClipperPoints env (getLatLngs0 p)) as [pts|e]; simpl in *;
    [|discriminate].
  destruct (toTurfPolygon env (getLatLngs0 p)) as [tp|e]; simpl in *;
    [|discriminate].
  destruct (intersectsOthers env ps p tp) as [b|e]; simpl in *; [|discriminate].
  injection H as <-. exists b, pts. auto.
Qed.

Lemma reduce_analyse1 (ps l : list Polygon) (acc a : Analysis) :
  reduce (analyse1 env ps) l acc = Ok a ->
  intersectingPolygons a = intersectingPolygons acc ++ filter (intersectsb env ps) l /\
  rest a =
    rest acc ++ map getLatLngs0 (filter (fun p => negb (intersectsb env ps p)) l) /\
  (forall p, In p l -> exists b, classify env ps p = Ok b) /\
  (Forall2 (fun pts p => latLngsToClipperPoints env (getLatLngs0 p) = Ok pts)
     (intersecting acc) (intersectingPolygons acc) ->
   Forall2 (fun pts p => latLngsToClipperPoints env (getLatLngs0 p) = Ok pts)
     (intersecting a) (intersectingPolygons a)).
Proof.
  revert acc; induction l as [|p l IH]; intros acc H; simpl in H.
  - injection H as <-. simpl. rewrite !app_nil_r.
    repeat split; auto. intros p [].
  - destruct (analyse1 env ps acc p) as [acc'|e] eqn:H1; simpl in H; [|discriminate].
    destruct (analyse1_classify _ _ _ _ H1) as (b & pts & Hc & Hpts & ->).
    destruct (IH _ H) as (Hip & Hrest & Hall & Hpaths). clear IH.
    assert (Hb : intersectsb env ps p = b) by (unfold intersectsb; rewrite Hc; reflexivity).
    simpl. rewrite Hb.
    destruct b; simpl in *.
    + rewrite <- app_assoc in Hip. repeat split; auto.
      * intros q [<- | Hq]; [exists true; exact Hc | exact (Hall q Hq)].
      * intros HF. apply Hpaths. apply Forall2_app; [exact HF|].
        constructor; [exact Hpts | constructor].
    + rewrite <- app_assoc in Hrest. repeat split; auto.
      intros q [<- | Hq]; [exists false; exact Hc | exact (Hall q Hq)].
Qed.

Lemma analyse_filter (ps : list Polygon) (a : Analysis) :
  analyse env ps = Ok a ->
  intersectingPolygons a = filter (intersectsb env ps) ps /\
  rest a = map getLatLngs0 (filter (fun p => negb (intersectsb env ps p)) ps) /\
  (forall p, In p ps -> exists b, classify env ps p = Ok b) /\
  Forall2 (fun pts p => latLngsToClipperPoints env (getLatLngs0 p) = Ok pts)
    (intersecting a) (intersectingPolygons a).
Proof.
  intros H. destruct (reduce_analyse1 _ _ _ _ H) as (H1 & H2 & H3 & H4).
  simpl in *. repeat split; auto.
Qed.




End AnalysisFacts.

(** ** What [merge] does to the world *)

Section MergeFacts.

Variable env : Imports.

Lemma without_nil (set : list Polygon) : without [] set = set.
Proof.
  unfold without. simpl. induction set as [|q set IH]; simpl; congruence.
Qed.

Lemma without_cons (p : Polygon) (gone set : list Polygon) :
  without (p :: gone) set = without gone (setDelete p set).
Proof.
  unfold without, setDelete.
  induction set as [|q set IH]; simpl in *; [reflexivity|].
  destruct (Object_is q p); simpl; rewrite IH; reflexivity.
Qed.

Lemma forEach_removeFor (gone : list Polygon) (w : World) :
  forEach removeFor gone w =
  Some (Ok tt,
        with_log (log w ++ map CallRemoveFor gone)
          (with_polygons (without gone (polygons w)) w)).
Proof.
  revert w; induction gone as [|p gone IH]; intros w.
  - simpl. unfold ret. rewrite without_nil, app_nil_r. destruct w; reflexivity.
  - simpl. unfold bind at 1. unfold removeFor, bind, tell, modify. simpl.
    rewrite IH. rewrite without_cons. simpl.
    rewrite <- app_assoc. reflexivity.
Qed.

Lemma createFor_prevented (n : nat) (latLngs : list LatLng)
  (options : DrawLayerOptions) (w : World) :
  createFor env (S n) latLngs options true w =
  Some (Ok [{| pid := nextId w; getLatLngs0 := latLngs |}],
        {| polygons :=
             setAdd {| pid := nextId w; getLatLngs0 := latLngs |} (polygons w);
           nextId := S (nextId w);
           modes := modes w;
           cancelSlot := cancelSlot w;
           sessions := sessions w;
           svg := svg w;
           log := log w ++ [CallCreateFor latLngs options true] |}).
Proof. reflexivity. Qed.

Lemma flatMap_createFor (n : nat) (options : DrawLayerOptions) (m : list Path)
  (w : World) :
  flatMap (fun polygon => createFor env (S n) (toLatLngs env polygon) options true) m w =
  Some (Ok (newPolygons (nextId w) (map (toLatLngs env) m)),
        {| polygons :=
             fold_left (fun set p => setAdd p set)
               (newPolygons (nextId w) (map (toLatLngs env) m)) (polygons w);
           nextId := (nextId w + List.length m)%nat;
           modes := modes w;
           cancelSlot := cancelSlot w;
           sessions := sessions w;
           svg := svg w;
           log :=
             log w ++
             map (fun ring => CallCreateFor ring options true) (map (toLatLngs env) m) |}).
Proof.
  revert w; induction m as [|path m IH]; intros w.
  - simpl. unfold ret. rewrite app_nil_r, Nat.add_0_r. destruct w; reflexivity.
  - cbn [flatMap]. unfold bind at 1. rewrite createFor_prevented.
    unfold bind at 1. rewrite IH. unfold ret. cbn.
    rewrite <- app_assoc, Nat.add_succ_r. reflexivity.
Qed.

(** [merge] as a function of its input: it ends for every input, with
    the error of the analysis or of the union and the world as it was
    (one log entry apart), or with the new polygons. *)
Lemma merge_run (n : nat) (ps : list Polygon) (options : DrawLayerOptions)
  (w : World) :
  merge env (createFor env (S n)) removeFor ps options w =
  match geometry env ps with
  | Thrown e => Some (Thrown e, with_log (log w ++ [CallMerge ps]) w)
  | Ok (a, m) =>
      Some (Ok (newPolygons (nextId w) (map (toLatLngs env) m)),
            afterMerge env ps options a m w)
  end.
Proof.
  unfold merge, geometry.
  unfold bind at 1. unfold tell, modify. cbn beta iota.
  unfold bind at 1. unfold liftR at 1.
  destruct (analyse env ps) as [a|e]; cbn [bindR]; [|reflexivity].
  unfold bind at 1. unfold liftR at 1.
  destruct (SimplifyPolygons env (intersecting a) pftNonZero) as [m|e];
    cbn [bindR]; [|reflexivity].
  unfold bind at 1. rewrite forEach_removeFor.
  fold (toLatLngs env).
  change (fun polygon : Path =>
            createFor env (S n)
              (map (fun model => layerPointToLatLng env (newPoint model)) polygon)
              options true)
    with (fun polygon => createFor env (S n) (toLatLngs env polygon) options true).
  rewrite flatMap_createFor. unfold afterMerge. cbn.
  rewrite <- !app_assoc. reflexivity.
Qed.

End MergeFacts.




(** ** What [createFor] does to the world *)

Section CreateFacts.

Variable env : Imports.

Lemma createFor_run (n : nat) (latLngs : list LatLng)
  (options : DrawLayerOptions) (w : World) :
  createFor env (S (S n)) latLngs options false w = createRun env latLngs options w.
Proof.
  unfold createRun, pipeline.
  change (createFor env (S (S n)) latLngs options false w)
    with ((tell (CallCreateFor latLngs options false) ;;;
           size <- gets (fun w => List.length (polygons w)) ;;
           if exceedsCap size (maximumPolygons options) then
             throw CapacityExceededError
           else
             tell StageSimplify ;;;
             simplified <-
               liftR (simplifyPolygon env latLngs (simplifyFactor options)) ;;
             ring <-
               (if concavePolygon options
                then tell StageConcave ;;; liftR (concaveOrFallback env simplified)
                else ret simplified) ;;
             polygon <- addPolygon ring ;;
             if mergePolygons options then
               all <- gets polygons ;;
               merged <- merge env (createFor env (S n)) removeFor all options ;;
               ret (match merged with
                    | [] => [polygon]
                    | _ => merged
                    end)
             else ret [polygon]) w).
  unfold bind at 1. unfold tell at 1, modify at 1. cbn beta iota.
  fold (logged (CallCreateFor latLngs options false) w).
  set (w0 := logged (CallCreateFor latLngs options false) w).
  unfold bind at 1. unfold gets at 1. cbn beta iota.
  change (polygons w0) with (polygons w).
  destruct (exceedsCap (List.length (polygons w)) (maximumPolygons options));
    [reflexivity|].
  unfold bind at 1. unfold tell at 1, modify at 1. cbn beta iota.
  fold (logged StageSimplify w0).
  unfold bind at 1. unfold liftR at 1.
  destruct (simplifyPolygon env latLngs (simplifyFactor options)) as [simplified|e];
    [|reflexivity].
  unfold bind at 1.
  destruct (concavePolygon options).
  - unfold bind at 1. unfold tell at 1, modify at 1. cbn beta iota.
    fold (logged StageConcave (logged StageSimplify w0)).
    unfold liftR at 1.
    destruct (concaveOrFallback env simplified) as [ring|e]; [|reflexivity].
    unfold bind at 1. unfold addPolygon at 1. cbn beta iota zeta.
    fold (withCandidate ring (logged StageConcave (logged StageSimplify w0))).
    destruct (mergePolygons options); [|reflexivity].
    unfold bind at 1. unfold gets at 1. cbn beta iota.
    unfold bind at 1. rewrite merge_run.
    destruct (geometry env _) as [[a m]|e]; reflexivity.
  - unfold ret at 1.
    unfold bind at 1. unfold addPolygon at 1. cbn beta iota zeta.
    fold (withCandidate simplified (logged StageSimplify w0)).
    destruct (mergePolygons options); [|reflexivity].
    unfold bind at 1. unfold gets at 1. cbn beta iota.
    unfold bind at 1. rewrite merge_run.
    destruct (geometry env _) as [[a m]|e]; reflexivity.
Qed.

(** Two levels of call depth are all [createFor] ever uses. *)
Lemma createFor_depth (n : nat) (latLngs : list LatLng)
  (options : DrawLayerOptions) (preventMutations : bool) (w : World) :
  createFor env (S (S n)) latLngs options preventMutations w =
  createFor env callDepth latLngs options preventMutations w.
Proof.
  destruct preventMutations.
  - unfold callDepth. rewrite !createFor_prevented. reflexivity.
  - unfold callDepth. rewrite !createFor_run. reflexivity.
Qed.

Lemma pipeline_frame (latLngs : list LatLng) (options : DrawLayerOptions)
  (w : World) :
  let w1 := snd (pipeline env latLngs options w) in
  polygons w1 = polygons w /\ nextId w1 = nextId w /\ modes w1 = modes w /\
  exists stages,
    log w1 = log w ++ StageSimplify :: stages /\
    (concavePolygon options = false -> stages = []) /\
    (forall ev, In ev stages -> ev = StageConcave).
Proof.
  unfold pipeline.
  destruct (simplifyPolygon env latLngs (simplifyFactor options)) as [s|e]; simpl.
  - destruct (concavePolygon options); simpl.
    + repeat split. exists [StageConcave]. rewrite <- app_assoc.
      repeat split; [discriminate|]. intros ev [<- | []]. reflexivity.
    + repeat split. exists []. repeat split. intros ev [].
  - repeat split. exists []. repeat split. intros ev [].
Qed.

(** [createFor] without [preventMutations] ends, and its log starts with
    its own call; with [concavePolygon] off the concave stage is not in it. *)
Lemma createRun_log (latLngs : list LatLng) (options : DrawLayerOptions)
  (w : World) :
  exists r w' events,
    createRun env latLngs options w = Some (r, w') /\
    log w' = log w ++ CallCreateFor latLngs options false :: events /\
    (concavePolygon options = false -> ~ In StageConcave events).
Proof.
  unfold createRun.
  set (w0 := logged (CallCreateFor latLngs options false) w).
  assert (H0 : log w0 = log w ++ [CallCreateFor latLngs options false])
    by reflexivity.
  destruct (exceedsCap _ _).
  { exists (Thrown CapacityExceededError), w0, []. repeat split; auto. }
  pose proof (pipeline_frame latLngs options w0) as Hframe.
  destruct (pipeline env latLngs options w0) as [[ring|e] w1].
  2:{ cbn beta iota zeta delta [snd] in Hframe. destruct Hframe as (_ & _ & _ & stages & Hlog & Hoff & _).
      exists (Thrown e), w1, (StageSimplify :: stages).
      split; [reflexivity|]. split.
      - rewrite Hlog, H0, <- app_assoc. reflexivity.
      - intros Hc [E | Hin]; [discriminate|]. rewrite (Hoff Hc) in Hin. exact Hin. }
  cbn beta iota zeta delta [snd] in Hframe. destruct Hframe as (_ & _ & _ & stages & Hlog & Hoff & _).
  assert (H1 : log w1 = log w ++ CallCreateFor latLngs options false
                        :: StageSimplify :: stages)
    by (rewrite Hlog, H0, <- app_assoc; reflexivity).
  destruct (mergePolygons options).
  - destruct (geometry env (polygons (withCandidate ring w1))) as [[a m]|e].
    + cbn zeta. eexists _, _, _. split; [reflexivity|]. split.
      * unfold afterMerge. cbn [log withCandidate with_polygons with_nextId].
        rewrite H1, <- app_assoc. reflexivity.
      * intros Hc Hin. rewrite (Hoff Hc) in Hin. not_in_log Hin.
    + eexists _, _, _. split; [reflexivity|]. split.
      * cbn [logged log withCandidate with_polygons with_nextId with_log].
        rewrite H1, <- app_assoc. reflexivity.
      * intros Hc Hin. rewrite (Hoff Hc) in Hin. not_in_log Hin.
  - eexists _, _, _. split; [reflexivity|]. split.
    + cbn [log withCandidate with_polygons with_nextId]. exact H1.
    + intros Hc Hin. rewrite (Hoff Hc) in Hin. not_in_log Hin.
Qed.

End CreateFacts.

(** ** The claims about [merge] *)

(** C6: the analysis and the union come first.  Whatever [createFor] and
    [removeFor] are, [merge] with a failing analysis or union stops with
    that error before it has called either of them; when both succeed
    what remains is [removeFor] on the intersecting polygons and
    [createFor] on the converted union paths.  With the helper modules as
    modelled that remainder raises nothing: [merge] returns, and the
    store went from its old state to its new one. *)
Theorem merge_geometry_before_store (env : Imports)
  (anyCreateFor : list LatLng -> DrawLayerOptions -> bool -> M (list Polygon))
  (anyRemoveFor : Polygon -> M unit)
  (n : nat) (ps : list Polygon) (options : DrawLayerOptions) (w : World) :
  merge env anyCreateFor anyRemoveFor ps options w =
    match geometry env ps with
    | Thrown e => Some (Thrown e, with_log (log w ++ [CallMerge ps]) w)
    | Ok (a, m) =>
        (forEach anyRemoveFor (intersectingPolygons a) ;;;
         flatMap
           (fun polygon => anyCreateFor (toLatLngs env polygon) options true) m)
          (with_log (log w ++ [CallMerge ps]) w)
    end
  /\
  match geometry env ps with
  | Thrown e =>
      exists w',
        merge env (createFor env (S n)) removeFor ps options w
          = Some (Thrown e, w') /\
        polygons w' = polygons w /\ nextId w' = nextId w
  | Ok (a, m) =>
      exists created w',
        merge env (createFor env (S n)) removeFor ps options w
          = Some (Ok created, w')
  end.
Proof.
  split.
  - unfold merge, geometry.
    unfold bind at 1. unfold tell, modify. cbn beta iota.
    unfold bind at 1. unfold liftR at 1.
    destruct (analyse env ps) as [a|e]; cbn [bindR]; [|reflexivity].
    unfold bind at 1. unfold liftR at 1.
    destruct (SimplifyPolygons env (intersecting a) pftNonZero) as [m|e];
      cbn [bindR]; reflexivity.
  - rewrite merge_run. destruct (geometry env ps) as [[a m]|e].
    + eauto.
    + eexists. split; [reflexivity|]. split; reflexivity.
Qed.

(** The theorem on the grid: on the squares A and B the intersection
    test throws, [merge] throws out of the analysis, and the store is the
    one it started with. *)
Lemma merge_geometry_witness :
  geometry Grid.imports [Grid.polygonA; Grid.polygonB] = Thrown LibraryError /\
  exists w',
    merge Grid.imports (createFor Grid.imports 1) removeFor
      [Grid.polygonA; Grid.polygonB] (DrawLayer.defaultOptions Grid.imports)
      (Grid.world [Grid.polygonA; Grid.polygonB] 15)
    = Some (Thrown LibraryError, w') /\
    polygons w' = [Grid.polygonA; Grid.polygonB].
Proof.
  assert (Hg : geometry Grid.imports [Grid.polygonA; Grid.polygonB]
               = Thrown LibraryError) by (vm_compute; reflexivity).
  split; [exact Hg|].
  destruct (merge_geometry_before_store Grid.imports
              (createFor Grid.imports 1) removeFor 0
              [Grid.polygonA; Grid.polygonB]
              (DrawLayer.defaultOptions Grid.imports)
              (Grid.world [Grid.polygonA; Grid.polygonB] 15)) as [_ H].
  rewrite Hg in H. destruct H as (w' & Hrun & Hstore & _).
  exists w'. split; [exact Hrun | exact Hstore].
Defined.

(** C3: one run of [merge] is one pass.  For every list of polygons and
    every world [merge] ends (one level of call depth for [createFor] is
    enough, whatever the input), and between its entry and its end the
    log shows no second entry of [merge] and no [createFor] without
    [preventMutations]. *)
Theorem merge_single_pass (env : Imports) (n : nat) (ps : list Polygon)
  (options : DrawLayerOptions) (w : World) :
  exists r w' events,
    merge env (createFor env (S n)) removeFor ps options w = Some (r, w') /\
    log w' = log w ++ CallMerge ps :: events /\
    Forall withinOnePass events.
Proof.
  rewrite merge_run. destruct (geometry env ps) as [[a m]|e].
  - eexists _, _, _. split; [reflexivity|]. split; [reflexivity|].
    apply Forall_app. split.
    + apply Forall_forall. intros ev Hev. apply in_map_iff in Hev as (p & <- & _).
      exact I.
    + apply Forall_forall. intros ev Hev. apply in_map_iff in Hev as (r & <- & _).
      reflexivity.
  - exists (Thrown e), (with_log (log w ++ [CallMerge ps]) w), [].
    split; [reflexivity|]. split; [reflexivity | constructor].
Qed.







(** ** The claims about the draw layer *)


(** *** The constructor *)

(** C4, as the code has it: the constructor checks nothing.  It returns
    a layer for every options object, and the layer holds each of the
    four numbers exactly as given (its default when the key is missing):
    no value is refused and none is clamped. *)
Theorem constructor_stores_options_unchecked (env : Imports)
  (options : Partial.t) :
  exists layer,
    DrawLayer.constructor env (Some options) = Ok layer /\
    DrawLayer.this_map layer = false /\
    maximumPolygons (DrawLayer.this_options layer)
      = override Infinity (Partial.maximumPolygons options) /\
    simplifyFactor (DrawLayer.this_options layer)
      = override (Finite (11 # 10)) (Partial.simplifyFactor options) /\
    elbowDistance (DrawLayer.this_options layer)
      = override (Finite 10) (Partial.elbowDistance options) /\
    smoothFactor (DrawLayer.this_options layer)
      = override (Finite (3 # 10)) (Partial.smoothFactor options).
Proof.
  unfold DrawLayer.constructor. eexists. split; [reflexivity|].
  cbn [DrawLayer.this_map DrawLayer.this_options spread maximumPolygons
       simplifyFactor elbowDistance smoothFactor DrawLayer.defaultOptions].
  repeat split.
Qed.

(** C4 as the specification words it fails: [maximumPolygons: -1] is an
    invalid configuration, and the constructor returns a layer with the
    cap -1 instead of failing with [InvalidConfigurationError]. *)
Lemma constructor_accepts_negative_cap :
  invalidConfiguration negativeCap = true /\
  DrawLayer.constructor Grid.imports (Some negativeCap)
    <> Thrown InvalidConfigurationError /\
  exists layer,
    DrawLayer.constructor Grid.imports (Some negativeCap) = Ok layer /\
    maximumPolygons (DrawLayer.this_options layer) = Finite (-1).
Proof.
  split; [reflexivity|]. split; [discriminate|].
  eexists. split; reflexivity.
Qed.

(** *** The mode gate *)

(** C5, as the code has it: the gate is in the pointer-down listener.
    With the CREATE bit off, [mouseDown] returns with the world as it
    was: no drag is begun, nothing is created.  The method [create] has
    no gate: on a layer that is on a map it calls [createFor] whatever
    the mode is. *)
Theorem create_gated_at_pointer_down_only (env : Imports) (this : DrawLayer.t)
  (w : World) :
  (forall event,
     bitAnd (modes w) (CREATE env) = 0 ->
     DrawLayer.mouseDown env this event w = Some (Ok tt, w)) /\
  (forall polygon options,
     DrawLayer.this_map this = true ->
     exists r w' events,
       DrawLayer.create env this polygon options w = Some (r, w') /\
       log w' =
         log w ++
         CallCreateFor polygon
           (spread (DrawLayer.this_options this)
              (override DrawLayer.createDefault options)) false
         :: events).
Proof.
  split.
  - intros event Hoff. unfold DrawLayer.mouseDown.
    unfold bind at 1. unfold gets at 1. cbn beta iota.
    rewrite Hoff. reflexivity.
  - intros polygon options Hmap. unfold DrawLayer.create. rewrite Hmap.
    cbn [negb]. unfold bind at 1. unfold callDepth. rewrite createFor_run.
    destruct (createRun_log env polygon
                (spread (DrawLayer.this_options this)
                   (override DrawLayer.createDefault options)) w)
      as (r & w1 & events & -> & Hlog & _).
    destruct r as [made|e].
    + eexists _, _, _. split; [reflexivity|].
      cbn [log with_log]. rewrite Hlog, <- app_assoc. reflexivity.
    + eexists _, _, _. split; [reflexivity|]. exact Hlog.
Qed.

(** C5 as the specification words it fails: with the mode NONE (no bit
    set), the method [create] still runs the pipeline and puts the
    polygon into the store. *)
Lemma create_runs_with_create_bit_off :
  bitAnd (modes (Grid.world [] 0)) (CREATE Grid.imports) = 0 /\
  exists created w',
    DrawLayer.create Grid.imports Grid.layer (Grid.latLngsOf Grid.ringA) None
      (Grid.world [] 0) = Some (Ok (Some created), w') /\
    polygons w' = [Grid.polygonA] /\
    polygons (Grid.world [] 0) = [] /\
    In StageSimplify (log w').
Proof.
  split; [reflexivity|].
  eexists _, _. split; [vm_compute; reflexivity|].
  split; [reflexivity|]. split; [reflexivity|].
  simpl. auto.
Qed.

(** The gate on the grid: a pointer-down in mode NONE changes nothing,
    and [create] in the same mode logs its call of [createFor]. *)
Lemma create_gated_witness :
  DrawLayer.mouseDown Grid.imports Grid.layer {| x := 3; y := 4 |}
    (Grid.world [] 0) = Some (Ok tt, Grid.world [] 0) /\
  exists r w' events,
    DrawLayer.create Grid.imports Grid.layer (Grid.latLngsOf Grid.ringA) None
      (Grid.world [] 0) = Some (r, w') /\
    log w' =
      log (Grid.world [] 0) ++
      CallCreateFor (Grid.latLngsOf Grid.ringA)
        (spread (DrawLayer.this_options Grid.layer)
           (override DrawLayer.createDefault None)) false
      :: events.
Proof.
  destruct (create_gated_at_pointer_down_only Grid.imports Grid.layer
              (Grid.world [] 0)) as [Hdown Hcreate].
  split.
  - apply Hdown. reflexivity.
  - apply Hcreate. reflexivity.
Defined.

(** *** The default options of [create] *)

(** C9, as the code has it: on a layer that is on a map, [create]
    without an options argument runs [createFor] with the options of the
    instance, except that [concavePolygon] is false, whatever the
    instance says: what [create] returns or throws is what that run of
    [createFor] returns or throws, followed by the notification when it
    returned, and the run does not reach the concave stage.  With an
    options argument the default [{ concavePolygon: false }] is not used
    at all: [createFor] runs with the options of the instance overridden
    by the argument, so the key [concavePolygon] of the argument decides,
    and the instance where the argument has no such key. *)
Theorem create_default_skips_concave (env : Imports) (this : DrawLayer.t)
  (polygon : list LatLng) (w : World) :
  DrawLayer.this_map this = true ->
  (exists r w1 events options,
     options =
       {| mode := mode (DrawLayer.this_options this);
          smoothFactor := smoothFactor (DrawLayer.this_options this);
          elbowDistance := elbowDistance (DrawLayer.this_options this);
          simplifyFactor := simplifyFactor (DrawLayer.this_options this);
          mergePolygons := mergePolygons (DrawLayer.this_options this);
          concavePolygon := false;
          maximumPolygons := maximumPolygons (DrawLayer.this_options this);
          notifyAfterEditExit :=
            notifyAfterEditExit (DrawLayer.this_options this);
          leaveModeAfterCreate :=
            leaveModeAfterCreate (DrawLayer.this_options this);
          strokeWidth := strokeWidth (DrawLayer.this_options this) |} /\
     createFor env callDepth polygon options false w = Some (r, w1) /\
     log w1 = log w ++ CallCreateFor polygon options false :: events /\
     ~ In StageConcave events /\
     DrawLayer.create env this polygon None w =
       Some (match r with
             | Ok made => (Ok (Some made), logged (CallUpdateFor "create") w1)
             | Thrown e => (Thrown e, w1)
             end)) /\
  (forall given,
     exists r w1 events options,
       options = spread (DrawLayer.this_options this) given /\
       concavePolygon options =
         override (concavePolygon (DrawLayer.this_options this))
           (Partial.concavePolygon given) /\
       createFor env callDepth polygon options false w = Some (r, w1) /\
       log w1 = log w ++ CallCreateFor polygon options false :: events /\
       (concavePolygon options = false -> ~ In StageConcave events) /\
       DrawLayer.create env this polygon (Some given) w =
         Some (match r with
               | Ok made => (Ok (Some made), logged (CallUpdateFor "create") w1)
               | Thrown e => (Thrown e, w1)
               end)).
Proof.
  intros Hmap.
  assert (Hcreate : forall given options r w1,
            options = spread (DrawLayer.this_options this)
                        (override DrawLayer.createDefault given) ->
            createRun env polygon options w = Some (r, w1) ->
            DrawLayer.create env this polygon given w =
              Some (match r with
                    | Ok made =>
                        (Ok (Some made), logged (CallUpdateFor "create") w1)
                    | Thrown e => (Thrown e, w1)
                    end)).
  { intros given options r w1 -> Hrun.
    unfold DrawLayer.create. rewrite Hmap. cbn [negb].
    unfold bind at 1. unfold callDepth. rewrite createFor_run, Hrun.
    destruct r; reflexivity. }
  split.
  - set (options := spread (DrawLayer.this_options this)
                      (override DrawLayer.createDefault None)).
    destruct (createRun_log env polygon options w)
      as (r & w1 & events & Hrun & Hlog & Hoff).
    exists r, w1, events, options.
    split; [reflexivity|]. split.
    { unfold callDepth. rewrite createFor_run. exact Hrun. }
    split; [exact Hlog|]. split; [exact (Hoff eq_refl)|].
    exact (Hcreate None options r w1 eq_refl Hrun).
  - intros given.
    set (options := spread (DrawLayer.this_options this) given).
    destruct (createRun_log env polygon options w)
      as (r & w1 & events & Hrun & Hlog & Hoff).
    exists r, w1, events, options.
    split; [reflexivity|]. split; [reflexivity|]. split.
    { unfold callDepth. rewrite createFor_run. exact Hrun. }
    split; [exact Hlog|]. split; [exact Hoff|].
    exact (Hcreate (Some given) options r w1 eq_refl Hrun).
Qed.

(** C9 as the specification words it fails.  On the grid layer, whose
    own [concavePolygon] is the default [true], a [create] that passes
    an options object without the key, here the empty one, runs
    [createFor] with [concavePolygon] true and reaches the concave
    stage, although the caller has not asked for it; and on a layer that
    is not on a map, [create] without an options argument runs nothing. *)
Lemma create_with_an_options_object_runs_concave :
  concavePolygon (DrawLayer.this_options Grid.layer) = true /\
  (exists r w' options events,
     DrawLayer.create Grid.imports Grid.layer (Grid.latLngsOf Grid.ringA)
       (Some Partial.empty) (Grid.world [] 15) = Some (r, w') /\
     log w' = CallCreateFor (Grid.latLngsOf Grid.ringA) options false :: events /\
     concavePolygon options = true /\
     In StageConcave events) /\
  (exists layer,
     DrawLayer.constructor Grid.imports None = Ok layer /\
     DrawLayer.create Grid.imports layer (Grid.latLngsOf Grid.ringA) None
       (Grid.world [] 15) = Some (Ok None, Grid.world [] 15)).
Proof.
  split; [reflexivity|]. split.
  - eexists _, _, _, _. split; [vm_compute; reflexivity|].
    split; [reflexivity|]. split; [reflexivity|]. simpl. auto.
  - eexists. split; reflexivity.
Qed.

(** The theorem on the grid layer, whose own [concavePolygon] is the
    default [true]: the square A is created and stored without the
    concave stage. *)
Lemma create_default_witness :
  concavePolygon (DrawLayer.this_options Grid.layer) = true /\
  exists made w' options,
    DrawLayer.create Grid.imports Grid.layer (Grid.latLngsOf Grid.ringA) None
      (Grid.world [] 15) = Some (Ok (Some made), w') /\
    In (CallCreateFor (Grid.latLngsOf Grid.ringA) options false) (log w') /\
    concavePolygon options = false /\
    ~ In StageConcave (log w') /\
    polygons w' = made.
Proof.
  split; [reflexivity|].
  destruct (create_default_skips_concave Grid.imports Grid.layer
              (Grid.latLngsOf Grid.ringA) (Grid.world [] 15) eq_refl)
    as [(r & w1 & events & options & Hopt & Hrun & Hlog & Hstage & Hcreate) _].
  subst options.
  destruct r as [made|e]; [|vm_compute in Hrun; discriminate Hrun].
  eexists made, (logged (CallUpdateFor "create") w1), _.
  split; [exact Hcreate|].
  cbn [log logged with_log]. rewrite Hlog. cbn [log Grid.world app].
  split; [left; reflexivity|]. split; [reflexivity|]. split.
  - intros [E | Hin]; [discriminate E|].
    apply in_app_or in Hin as [Hin | [E | []]]; [exact (Hstage Hin)|].
    discriminate E.
  - vm_compute in Hrun. injection Hrun as <- <-. reflexivity.
Defined.

(** *** Cancelling a drag *)

Lemma nth_error_adjust {A : Type} (f : A -> A) (l : list A) (i : nat) (a : A) :
  nth_error (adjust i f l) i = Some a ->
  exists a0, nth_error l i = Some a0 /\ a = f a0.
Proof.
  revert i; induction l as [|b l IH]; intros [|i]; simpl; try discriminate.
  - intros H. injection H as <-. eauto.
  - apply IH.
Qed.

(** C8: [cancel] ends in every world, and it leaves the store, the
    identities and the log as they were (nothing is created, removed or
    notified).  A second [cancel] right after the first ends the same
    way and changes nothing more.  When a drag is bound to the cancel
    key, [cancel] unbinds it, stops its listeners and clears the preview. *)
Theorem cancel_keeps_store_and_is_idempotent (env : Imports)
  (this : DrawLayer.t) (w : World) :
  exists r w',
    DrawLayer.cancel env this w = Some (r, w') /\
    polygons w' = polygons w /\
    nextId w' = nextId w /\
    modes w' = modes w /\
    log w' = log w /\
    DrawLayer.cancel env this w' = Some (r, w') /\
    (forall sid,
       DrawLayer.this_map this = true ->
       cancelSlot w = SlotSession sid ->
       r = Ok tt /\
       cancelSlot w' = SlotNoop /\
       svg w' = [] /\
       forall s, nth_error (sessions w') sid = Some s -> listening s = false).
Proof.
  unfold DrawLayer.cancel.
  destruct (DrawLayer.this_map this) eqn:Hmap; cbn [negb].
  2:{ exists (Ok tt), w. repeat split; discriminate. }
  unfold bind at 1. unfold gets at 1. cbn beta iota.
  destruct (cancelSlot w) as [| |sid] eqn:Hslot.
  - exists (Thrown TypeError), w. unfold bind, gets. rewrite Hslot.
    repeat split; discriminate.
  - exists (Ok tt), w. unfold bind, gets. rewrite Hslot.
    repeat split; discriminate.
  - exists (Ok tt),
      (with_svg []
         (with_sessions (adjust sid DrawLayer.stopListening (sessions w))
            (with_cancelSlot SlotNoop w))).
    do 6 (split; [reflexivity|]).
    intros sid' _ Hsid. injection Hsid as <-.
    do 3 (split; [reflexivity|]).
    intros s Hs. cbn [sessions with_svg with_sessions] in Hs.
    apply nth_error_adjust in Hs as (s0 & _ & ->). reflexivity.
Qed.

(** The theorem on a drag in progress: after a pointer-down on the
    grid, [cancel] leaves the store as it is and unbinds the drag, and a
    second [cancel] changes nothing. *)
Lemma cancel_witness :
  exists r w',
    DrawLayer.mouseDown Grid.imports Grid.layer {| x := 0; y := 0 |}
      (Grid.world [] 15) = Some (Ok tt, Grid.dragging) /\
    cancelSlot Grid.dragging = SlotSession 0 /\
    DrawLayer.cancel Grid.imports Grid.layer Grid.dragging = Some (r, w') /\
    polygons w' = polygons Grid.dragging /\
    DrawLayer.cancel Grid.imports Grid.layer w' = Some (r, w') /\
    cancelSlot w' = SlotNoop.
Proof.
  destruct (cancel_keeps_store_and_is_idempotent Grid.imports Grid.layer
              Grid.dragging)
    as (r & w' & Hrun & Hstore & _ & _ & _ & Hagain & Hdrag).
  exists r, w'.
  split; [reflexivity|]. split; [reflexivity|].
  split; [exact Hrun|]. split; [exact Hstore|]. split; [exact Hagain|].
  destruct (Hdrag 0%nat eq_refl eq_refl) as (_ & Hslot & _). exact Hslot.
Defined.

(** C8 as the specification words it fails: two pointer-downs on the
    empty map, then [cancel].  The drag begun first is not aborted: its
    listeners are still attached, and its moves and its pointer-up go on
    to create a polygon. *)
Lemma cancel_leaves_the_earlier_drag :
  exists w1 w2 earlier,
    (DrawLayer.mouseDown Grid.imports Grid.layer {| x := 0; y := 0 |} ;;;
     DrawLayer.mouseDown Grid.imports Grid.layer {| x := 9; y := 9 |} ;;;
     DrawLayer.cancel Grid.imports Grid.layer) (Grid.world [] 15)
      = Some (Ok tt, w1) /\
    nth_error (sessions w1) 0 = Some earlier /\
    listening earlier = true /\
    polygons w1 = [] /\
    (forEach (DrawLayer.mouseMove Grid.imports 0)
       [{| x := 2; y := 0 |}; {| x := 2; y := 2 |}; {| x := 0; y := 2 |}] ;;;
     DrawLayer.mouseUp Grid.imports Grid.layer 0 true) w1 = Some (Ok tt, w2) /\
    List.length (polygons w2) = 1%nat.
Proof.
  eexists _, _, _. split; [vm_compute; reflexivity|].
  split; [reflexivity|]. split; [reflexivity|]. split; [reflexivity|].
  split; [vm_compute; reflexivity | reflexivity].
Qed.

(** * Further properties of the code *)

(** ** [merge]: the analysis *)



Lemma filter_others_same (ps : list Polygon) (p : Polygon) :
  (forall q, In q ps -> Object_is q p = true) ->
  filter (fun item => negb (Object_is item p)) ps = [].
Proof.
  induction ps as [|q ps IH]; intros Hsame; simpl; [reflexivity|].
  rewrite (Hsame q (or_introl eq_refl)). simpl.
  apply IH. intros r Hr. apply Hsame. right. exact Hr.
Qed.

Lemma reduce_same_object (env : Imports) (ps l : list Polygon) (acc : Analysis) :
  (forall p q, In p ps -> In q ps -> Object_is q p = true) ->
  (forall p, In p l ->
     In p ps /\
     exists pts tp,
       latLngsToClipperPoints env (getLatLngs0 p) = Ok pts /\
       toTurfPolygon env (getLatLngs0 p) = Ok tp) ->
  reduce (analyse1 env ps) l acc =
  Ok {| intersecting := intersecting acc;
        rest := rest acc ++ map getLatLngs0 l;
        intersectingPolygons := intersectingPolygons acc |}.
Proof.
  intros Hsame. revert acc. induction l as [|p l IH]; intros acc Hok; simpl.
  - rewrite app_nil_r. destruct acc; reflexivity.
  - destruct (Hok p (or_introl eq_refl)) as (Hp & pts & tp & Hpts & Htp).
    unfold analyse1 at 1. rewrite Hpts. cbn [bindR]. rewrite Htp. cbn [bindR].
    unfold intersectsOthers.
    rewrite (filter_others_same ps p (fun q Hq => Hsame p q Hp Hq)).
    cbn [some bindR]. rewrite IH.
    + cbn [intersecting rest intersectingPolygons].
      rewrite <- app_assoc. reflexivity.
    + intros q Hq. apply Hok. right. exact Hq.
Qed.

(** X2: a polygon is never tested against itself.  On a list whose
    entries are all the same object (a single polygon, or one object
    listed more than once) [isIntersecting] is not consulted: when the
    conversions of the ring succeed, every entry goes to the rest,
    whatever [isIntersecting] would answer or throw. *)
Theorem analyse_never_tests_a_polygon_against_itself (env : Imports)
  (ps : list Polygon) :
  (forall p q, In p ps -> In q ps -> Object_is q p = true) ->
  (forall p, In p ps ->
     exists pts tp,
       latLngsToClipperPoints env (getLatLngs0 p) = Ok pts /\
       toTurfPolygon env (getLatLngs0 p) = Ok tp) ->
  analyse env ps =
  Ok {| intersecting := [];
        rest := map getLatLngs0 ps;
        intersectingPolygons := [] |}.
Proof.
  intros Hsame Hok. unfold analyse.
  rewrite (reduce_same_object env ps ps _ Hsame); [reflexivity|].
  intros p Hp. split; [exact Hp | exact (Hok p Hp)].
Qed.

(** The theorem on the square A alone and listed twice. *)
Lemma analyse_never_tests_itself_witness :
  analyse Grid.imports [Grid.polygonA; Grid.polygonA] =
  Ok {| intersecting := [];
        rest := [getLatLngs0 Grid.polygonA; getLatLngs0 Grid.polygonA];
        intersectingPolygons := [] |}.
Proof.
  apply (analyse_never_tests_a_polygon_against_itself Grid.imports
           [Grid.polygonA; Grid.polygonA]).
  - intros p q Hp Hq. simpl in Hp, Hq.
    destruct Hp as [<- | [<- | []]]; destruct Hq as [<- | [<- | []]]; reflexivity.
  - intros p Hp. simpl in Hp.
    destruct Hp as [<- | [<- | []]]; eexists _, _; split; vm_compute; reflexivity.
Defined.

(** ** [merge]: the store *)

(** X3: with nothing intersecting, [merge] touches nothing.  When the
    analysis finds no intersecting polygon, Clipper is given the empty
    list; if it answers with no path, [merge] calls neither [removeFor]
    nor [createFor] (whatever they are) and returns the empty array. *)
Theorem merge_without_intersections (env : Imports)
  (anyCreateFor : list LatLng -> DrawLayerOptions -> bool -> M (list Polygon))
  (anyRemoveFor : Polygon -> M unit)
  (ps : list Polygon) (options : DrawLayerOptions) (w : World) (a : Analysis) :
  analyse env ps = Ok a ->
  intersectingPolygons a = [] ->
  SimplifyPolygons env [] pftNonZero = Ok [] ->
  merge env anyCreateFor anyRemoveFor ps options w =
  Some (Ok [], logged (CallMerge ps) w).
Proof.
  intros Ha Hnone Hunion.
  destruct (analyse_filter env ps a Ha) as (_ & _ & _ & Hpaths).
  assert (Hempty : intersecting a = []).
  { rewrite Hnone in Hpaths. inversion Hpaths. reflexivity. }
  unfold merge.
  unfold bind at 1. unfold tell, modify. cbn beta iota.
  unfold bind at 1. unfold liftR at 1. rewrite Ha.
  unfold bind at 1. unfold liftR at 1. rewrite Hempty, Hunion.
  rewrite Hnone. reflexivity.
Qed.

(** The theorem on the one polygon of a store. *)
Lemma merge_without_intersections_witness :
  merge Grid.imports (createFor Grid.imports 1) removeFor
    [Grid.polygonA] (DrawLayer.defaultOptions Grid.imports)
    (Grid.world [Grid.polygonA] 15) =
  Some (Ok [],
        logged (CallMerge [Grid.polygonA]) (Grid.world [Grid.polygonA] 15)).
Proof.
  apply (merge_without_intersections Grid.imports (createFor Grid.imports 1)
           removeFor [Grid.polygonA]
           (DrawLayer.defaultOptions Grid.imports)
           (Grid.world [Grid.polygonA] 15)
           {| intersecting := [];
              rest := [getLatLngs0 Grid.polygonA];
              intersectingPolygons := [] |}).
  - vm_compute. reflexivity.
  - reflexivity.
  - vm_compute. reflexivity.
Defined.




(** ** [fillPolygon] *)

(** X5: [fillPolygon] does not use what Clipper returns.  An error of
    the conversion or of [Clipper.SimplifyPolygon] leaves the world as it
    was; when both return, the polygon is removed and one polygon is
    created, with merging prevented, from the converted points
    themselves, whatever paths [Clipper.SimplifyPolygon] returned. *)
Theorem fillPolygon_drops_the_simplified_paths (env : Imports)
  (anySimplifyPolygon : Path -> PolyFillType -> Result (list Path))
  (anyCreateFor : list LatLng -> DrawLayerOptions -> bool -> M (list Polygon))
  (anyRemoveFor : Polygon -> M unit)
  (polygon : Polygon) (options : DrawLayerOptions) (w : World) :
  fillPolygon env anySimplifyPolygon anyCreateFor anyRemoveFor polygon options w =
  match latLngsToClipperPoints env (getLatLngs0 polygon) with
  | Thrown e => Some (Thrown e, w)
  | Ok points =>
      match anySimplifyPolygon points pftNonZero with
      | Thrown e => Some (Thrown e, w)
      | Ok _ =>
          (anyRemoveFor polygon ;;;
           anyCreateFor (toLatLngs env points) options true ;;;
           ret tt) w
      end
  end.
Proof.
  unfold fillPolygon. unfold bind at 1. unfold liftR at 1.
  destruct (latLngsToClipperPoints env (getLatLngs0 polygon)) as [points|e];
    [|reflexivity].
  unfold bind at 1. unfold liftR at 1.
  destruct (anySimplifyPolygon points pftNonZero) as [simplified|e];
    reflexivity.
Qed.

(** X6: with projections that give the ring back, [fillPolygon] replaces
    the polygon by a new object on the same ring.  The store afterwards
    is the old one without the polygon, followed by a polygon with the
    next identity and the same [LatLng]s; this holds whatever
    [Clipper.SimplifyPolygon] returned. *)
Theorem fillPolygon_recreates_the_ring (env : Imports)
  (anySimplifyPolygon : Path -> PolyFillType -> Result (list Path))
  (n : nat) (polygon : Polygon) (options : DrawLayerOptions) (w : World)
  (points : Path) (simplified : list Path) :
  (forall q, In q (polygons w) -> (pid q < nextId w)%nat) ->
  latLngsToClipperPoints env (getLatLngs0 polygon) = Ok points ->
  anySimplifyPolygon points pftNonZero = Ok simplified ->
  toLatLngs env points = getLatLngs0 polygon ->
  exists w',
    fillPolygon env anySimplifyPolygon (createFor env (S n)) removeFor
      polygon options w = Some (Ok tt, w') /\
    polygons w' =
      replaced polygon
        [{| pid := nextId w; getLatLngs0 := getLatLngs0 polygon |}] w /\
    nextId w' = S (nextId w) /\
    log w' =
      log w ++ [CallRemoveFor polygon;
                CallCreateFor (getLatLngs0 polygon) options true].
Proof.
  intros Hfresh Hpoints Hsimplified Hround.
  unfold fillPolygon. unfold bind at 1. unfold liftR at 1. rewrite Hpoints.
  unfold bind at 1. unfold liftR at 1. rewrite Hsimplified.
  change (map (fun model => layerPointToLatLng env (newPoint model)) points)
    with (toLatLngs env points).
  rewrite Hround.
  unfold bind at 1. unfold removeFor at 1, bind, tell, modify.
  cbn beta iota. rewrite createFor_prevented. unfold ret.
  eexists. split; [reflexivity|].
  cbn [polygons nextId log with_polygons with_log]. split; [|split].
  - unfold replaced, setAdd.
    destruct (existsb _ (setDelete polygon (polygons w))) eqn:E; [|reflexivity].
    apply existsb_exists in E as (q & Hq & Hsame).
    unfold setDelete in Hq. apply filter_In in Hq as [Hq _].
    apply Hfresh in Hq. unfold Object_is in Hsame. simpl in Hsame.
    apply Nat.eqb_eq in Hsame. lia.
  - reflexivity.
  - rewrite <- app_assoc. reflexivity.
Qed.

(** The theorem on the grid, with a [SimplifyPolygon] that returns no
    path at all: the square A is still there afterwards, as a new object. *)
Lemma fillPolygon_recreates_witness :
  exists w',
    fillPolygon Grid.imports (fun _ _ => Ok []) (createFor Grid.imports 1)
      removeFor Grid.polygonA (DrawLayer.defaultOptions Grid.imports)
      (Grid.world [Grid.polygonA] 15) = Some (Ok tt, w') /\
    polygons w' = [{| pid := 1; getLatLngs0 := getLatLngs0 Grid.polygonA |}].
Proof.
  destruct (fillPolygon_recreates_the_ring Grid.imports (fun _ _ => Ok []) 0
              Grid.polygonA (DrawLayer.defaultOptions Grid.imports)
              (Grid.world [Grid.polygonA] 15)
              (Grid.pathOfRing Grid.ringA) [])
    as (w' & Hrun & Hstore & _).
  - intros q [<- | []]. simpl. lia.
  - reflexivity.
  - reflexivity.
  - reflexivity.
  - exists w'. split; [exact Hrun | exact Hstore].
Defined.

(** ** The draw layer: what [createFor] leaves alone *)

(** [createFor] ends; it changes the store, the identities and the log
    only, and logs its own call first and then nothing but calls and
    stages of the pipeline. *)
Lemma createFor_frame (env : Imports) (latLngs : list LatLng)
  (options : DrawLayerOptions) (preventMutations : bool) (w : World) :
  exists r w' events,
    createFor env callDepth latLngs options preventMutations w = Some (r, w') /\
    modes w' = modes w /\
    cancelSlot w' = cancelSlot w /\
    sessions w' = sessions w /\
    svg w' = svg w /\
    log w' = log w ++ CallCreateFor latLngs options preventMutations :: events /\
    Forall quiet events.
Proof.
  destruct preventMutations.
  - unfold callDepth. rewrite createFor_prevented.
    eexists _, _, []. repeat split. constructor.
  - unfold callDepth. rewrite createFor_run. unfold createRun, pipeline.
    destruct (exceedsCap _ _).
    { eexists _, _, []. repeat split. constructor. }
    destruct (simplifyPolygon env latLngs (simplifyFactor options)) as [simplified|e].
    2:{ eexists _, _, _. do 5 (split; [reflexivity|]).
        split; [cbn; rewrite <- !app_assoc; reflexivity | quiet_events]. }
    destruct (concavePolygon options).
    + destruct (concaveOrFallback env simplified) as [ring|e].
      2:{ eexists _, _, _. do 5 (split; [reflexivity|]).
          split; [cbn; rewrite <- !app_assoc; reflexivity | quiet_events]. }
      destruct (mergePolygons options).
      * destruct (geometry env _) as [[a m]|e];
          eexists _, _, _; (do 5 (split; [reflexivity|]));
          (split; [cbn; rewrite <- !app_assoc; reflexivity | quiet_events]).
      * eexists _, _, _. do 5 (split; [reflexivity|]).
        split; [cbn; rewrite <- !app_assoc; reflexivity | quiet_events].
    + destruct (mergePolygons options).
      * destruct (geometry env _) as [[a m]|e];
          eexists _, _, _; (do 5 (split; [reflexivity|]));
          (split; [cbn; rewrite <- !app_assoc; reflexivity | quiet_events]).
      * eexists _, _, _. do 5 (split; [reflexivity|]).
        split; [cbn; rewrite <- !app_assoc; reflexivity | quiet_events].
Qed.

(** Within one [createFor] there is no second call without
    [preventMutations]. *)
Lemma createFor_calls (env : Imports) (latLngs : list LatLng)
  (options : DrawLayerOptions) (w : World) :
  exists r w' events,
    createFor env callDepth latLngs options false w = Some (r, w') /\
    cancelSlot w' = cancelSlot w /\
    svg w' = svg w /\
    log w' = log w ++ CallCreateFor latLngs options false :: events /\
    Forall noFurtherCreate events.
Proof.
  unfold callDepth. rewrite createFor_run. unfold createRun, pipeline.
  destruct (exceedsCap _ _).
  { eexists _, _, []. repeat split. constructor. }
  destruct (simplifyPolygon env latLngs (simplifyFactor options)) as [simplified|e].
  2:{ eexists _, _, _. do 3 (split; [reflexivity|]).
      split; [cbn; rewrite <- !app_assoc; reflexivity | quiet_events]. }
  destruct (concavePolygon options).
  - destruct (concaveOrFallback env simplified) as [ring|e].
    2:{ eexists _, _, _. do 3 (split; [reflexivity|]).
        split; [cbn; rewrite <- !app_assoc; reflexivity | quiet_events]. }
    destruct (mergePolygons options).
    + destruct (geometry env _) as [[a m]|e];
        eexists _, _, _; (do 3 (split; [reflexivity|]));
        (split; [cbn; rewrite <- !app_assoc; reflexivity | quiet_events]).
    + eexists _, _, _. do 3 (split; [reflexivity|]).
      split; [cbn; rewrite <- !app_assoc; reflexivity | quiet_events].
  - destruct (mergePolygons options).
    + destruct (geometry env _) as [[a m]|e];
        eexists _, _, _; (do 3 (split; [reflexivity|]));
        (split; [cbn; rewrite <- !app_assoc; reflexivity | quiet_events]).
    + eexists _, _, _. do 3 (split; [reflexivity|]).
      split; [cbn; rewrite <- !app_assoc; reflexivity | quiet_events].
Qed.

(** ** Lists updated at an index *)

Lemma adjust_nth {A : Type} (f : A -> A) (l : list A) (i : nat) (a : A) :
  nth_error l i = Some a -> nth_error (adjust i f l) i = Some (f a).
Proof.
  revert i; induction l as [|b l IH]; intros [|i]; simpl; try discriminate.
  - intros H. injection H as <-. reflexivity.
  - apply IH.
Qed.

Lemma adjust_other {A : Type} (f : A -> A) (l : list A) (i j : nat) :
  i <> j -> nth_error (adjust i f l) j = nth_error l j.
Proof.
  revert i j; induction l as [|b l IH]; intros [|i] [|j] Hne; simpl;
    try reflexivity; try contradiction.
  apply IH. intros E. apply Hne. congruence.
Qed.

Lemma adjust_length {A : Type} (f : A -> A) (l : list A) (i : nat) :
  List.length (adjust i f l) = List.length l.
Proof.
  revert i; induction l as [|b l IH]; intros [|i]; simpl; auto.
Qed.

Lemma adjust_twice {A : Type} (f g : A -> A) (l : list A) (i : nat) :
  adjust i g (adjust i f l) = adjust i (fun a => g (f a)) l.
Proof.
  revert i; induction l as [|b l IH]; intros [|i]; simpl; try reflexivity.
  rewrite IH. reflexivity.
Qed.

Lemma adjust_ext {A : Type} (f g : A -> A) (l : list A) (i : nat) :
  (forall a, f a = g a) -> adjust i f l = adjust i g l.
Proof.
  intros Hfg. revert i; induction l as [|b l IH]; intros [|i]; simpl;
    try reflexivity.
  - rewrite Hfg. reflexivity.
  - rewrite IH. reflexivity.
Qed.

Lemma adjust_same {A : Type} (f : A -> A) (l : list A) (i : nat) :
  (forall a, f a = a) -> adjust i f l = l.
Proof.
  intros Hf. revert i; induction l as [|b l IH]; intros [|i]; simpl;
    try reflexivity.
  - rewrite Hf. reflexivity.
  - rewrite IH. reflexivity.
Qed.

Lemma adjust_new {A : Type} (f : A -> A) (l : list A) (a : A) :
  adjust (List.length l) f (l ++ [a]) = l ++ [f a].
Proof.
  induction l as [|b l IH]; simpl; [reflexivity|]. rewrite IH. reflexivity.
Qed.

Lemma adjust_old {A : Type} (f : A -> A) (l l' : list A) (i : nat) :
  (i < List.length l)%nat -> adjust i f (l ++ l') = adjust i f l ++ l'.
Proof.
  revert i; induction l as [|b l IH]; intros [|i] Hi; simpl in *; try lia;
    try reflexivity.
  rewrite IH; [reflexivity | lia].
Qed.

Lemma last_cons {A : Type} (a d : A) (l : list A) :
  last (a :: l) d = last l a.
Proof.
  revert a d; induction l as [|b l IH]; intros a d; [reflexivity|].
  change (last (a :: b :: l) d) with (last (b :: l) d).
  rewrite (IH b d), (IH b a). reflexivity.
Qed.

(** ** The pointer handlers *)

Lemma moved_nil (env : Imports) (s : Session) : moved env s [] = s.
Proof. destruct s. unfold moved. simpl. rewrite app_nil_r. reflexivity. Qed.

Lemma moved_cons (env : Imports) (s : Session) (point : Point)
  (events : list Point) :
  moved env
    {| linePoints := linePoints s ++ [containerPointToLatLng env point];
       lastPoint := point;
       listening := listening s |} events
  = moved env s (point :: events).
Proof.
  unfold moved. cbn [linePoints lastPoint listening map].
  rewrite <- app_assoc, last_cons. reflexivity.
Qed.

(** The moves of a drag, as one step. *)
Lemma mouseMoves_run (env : Imports) (sid : nat) (events : list Point)
  (w : World) (s : Session) :
  nth_error (sessions w) sid = Some s ->
  forEach (DrawLayer.mouseMove env sid) events w =
  Some (Ok tt,
        with_svg (svg w ++ segments (lastPoint s) events)
          (with_sessions
             (adjust sid (fun s0 => moved env s0 events) (sessions w)) w)).
Proof.
  revert w s; induction events as [|point events IH]; intros w s Hs.
  - simpl. unfold ret. rewrite app_nil_r.
    rewrite (adjust_same _ _ _ (moved_nil env)). destruct w; reflexivity.
  - cbn [forEach]. unfold bind at 1.
    unfold DrawLayer.mouseMove at 1. unfold bind, gets, modify.
    rewrite Hs. cbn beta iota.
    erewrite IH.
    2:{ cbn [sessions with_svg with_sessions]. apply adjust_nth. exact Hs. }
    cbn [svg sessions lastPoint with_svg with_sessions segments].
    rewrite adjust_twice, <- app_assoc.
    rewrite (adjust_ext _ (fun s0 => moved env s0 (point :: events)));
      [|intros a; apply moved_cons].
    reflexivity.
Qed.

Lemma linePointsOf_closeDrag (sid : nat) (w : World) :
  DrawLayer.linePointsOf sid (closeDrag sid w) = DrawLayer.linePointsOf sid w.
Proof.
  unfold DrawLayer.linePointsOf, closeDrag.
  cbn [sessions with_svg with_sessions with_cancelSlot].
  destruct (nth_error (sessions w) sid) as [s|] eqn:Hs.
  - rewrite (adjust_nth _ _ _ _ Hs). reflexivity.
  - destruct (nth_error (adjust sid DrawLayer.stopListening (sessions w)) sid)
      as [s'|] eqn:Hs'; [|reflexivity].
    apply nth_error_adjust in Hs' as (s0 & Hs0 & _). congruence.
Qed.

(** [mouseUp] with [create = true], call by call. *)
Lemma mouseUp_run (env : Imports) (this : DrawLayer.t) (sid : nat) (w : World) :
  DrawLayer.this_map this = true ->
  DrawLayer.mouseUp env this sid true w =
  match DrawLayer.linePointsOf sid w with
  | [] => Some (Ok tt, finishDrag env this (closeDrag sid w))
  | points =>
      match createFor env callDepth points (DrawLayer.this_options this) false
              (closeDrag sid w) with
      | None => None
      | Some (Thrown e, w') => Some (Thrown e, w')
      | Some (Ok _, w') => Some (Ok tt, finishDrag env this w')
      end
  end.
Proof.
  intros Hmap. rewrite <- (linePointsOf_closeDrag sid w).
  pose (finish :=
    updateFor "create" ;;;
    (if leaveModeAfterCreate (DrawLayer.this_options this)
     then current <- DrawLayer.mode this None ;;
          DrawLayer.mode this
            (Some (bitXor (override 0 current) (CREATE env))) ;;;
          ret tt
     else ret tt)).
  assert (Hfinish : forall w', finish w' = Some (Ok tt, finishDrag env this w')).
  { intros w'. unfold finish, finishDrag, updateFor, DrawLayer.mode.
    rewrite Hmap. cbn [negb].
    destruct (leaveModeAfterCreate (DrawLayer.this_options this)); reflexivity. }
  change (DrawLayer.mouseUp env this sid true w)
    with (bind
            (match DrawLayer.linePointsOf sid (closeDrag sid w) with
             | [] => ret tt
             | _ :: _ =>
                 createFor env callDepth
                   (DrawLayer.linePointsOf sid (closeDrag sid w))
                   (DrawLayer.this_options this) false ;;; ret tt
             end)
            (fun _ => finish) (closeDrag sid w)).
  destruct (DrawLayer.linePointsOf sid (closeDrag sid w)) as [|point points].
  - unfold bind, ret. apply Hfinish.
  - unfold bind at 1. unfold bind at 1.
    destruct (createFor env callDepth (point :: points)
                (DrawLayer.this_options this) false (closeDrag sid w))
      as [[[made|e] w']|]; try reflexivity.
    unfold ret. apply Hfinish.
Qed.

(** ** The bit operations on the mode *)

Lemma toInt32_low_bits (z n : Z) :
  0 <= n < 32 -> Z.testbit (toInt32 z) n = Z.testbit z n.
Proof.
  intros Hn.
  assert (Hmod : toInt32 z mod 2 ^ 32 = z mod 2 ^ 32).
  { unfold toInt32. rewrite Zminus_mod_idemp_l. f_equal. lia. }
  rewrite <- (Z.mod_pow2_bits_low (toInt32 z) 32 n) by lia.
  rewrite Hmod. apply Z.mod_pow2_bits_low. lia.
Qed.

Lemma small_high_bits (c n : Z) :
  0 <= c < 2 ^ 31 -> 31 <= n -> Z.testbit c n = false.
Proof.
  intros Hc Hn. apply Z.testbit_false; [lia|].
  rewrite Z.div_small; [reflexivity|].
  split; [lia|]. apply Z.lt_le_trans with (2 ^ 31); [lia|].
  apply Z.pow_le_mono_r; lia.
Qed.

Lemma toInt32_small (c : Z) : 0 <= c < 2 ^ 31 -> toInt32 c = c.
Proof.
  intros Hc. unfold toInt32. rewrite Z.mod_small; lia.
Qed.

Lemma bitAnd_small (m c : Z) : 0 <= c < 2 ^ 31 -> bitAnd m c = Z.land m c.
Proof.
  intros Hc. unfold bitAnd. rewrite (toInt32_small c Hc).
  apply Z.bits_inj'. intros n Hn. rewrite !Z.land_spec.
  destruct (Z_lt_le_dec n 31) as [Hlow | Hhigh].
  - rewrite toInt32_low_bits by lia. reflexivity.
  - rewrite (small_high_bits c n Hc Hhigh), !andb_false_r. reflexivity.
Qed.

Lemma bitAnd_bitXor (m c : Z) :
  0 <= c < 2 ^ 31 -> bitAnd (bitXor m c) c = Z.lxor (bitAnd m c) c.
Proof.
  intros Hc. rewrite !bitAnd_small by exact Hc.
  unfold bitXor. rewrite (toInt32_small c Hc).
  apply Z.bits_inj'. intros n Hn.
  rewrite Z.land_spec, !Z.lxor_spec, Z.land_spec.
  destruct (Z_lt_le_dec n 31) as [Hlow | Hhigh].
  - rewrite toInt32_low_bits by lia.
    destruct (Z.testbit m n), (Z.testbit c n); reflexivity.
  - rewrite (small_high_bits c n Hc Hhigh).
    destruct (Z.testbit (toInt32 m) n), (Z.testbit m n); reflexivity.
Qed.

Lemma bitAnd_single_bit (m k : Z) :
  0 <= k < 31 -> bitAnd m (2 ^ k) = 0 \/ bitAnd m (2 ^ k) = 2 ^ k.
Proof.
  intros Hk.
  assert (Hc : 0 <= 2 ^ k < 2 ^ 31).
  { split; [apply Z.pow_nonneg; lia | apply Z.pow_lt_mono_r; lia]. }
  rewrite bitAnd_small by exact Hc.
  destruct (Z.testbit m k) eqn:Hbit; [right | left];
    apply Z.bits_inj'; intros n Hn; rewrite Z.land_spec, Z.pow2_bits_eqb by lia.
  - destruct (Z.eqb_spec k n) as [<- | Hne];
      [rewrite Hbit | rewrite andb_false_r]; reflexivity.
  - rewrite Z.bits_0. destruct (Z.eqb_spec k n) as [<- | Hne];
      [rewrite Hbit | rewrite andb_false_r]; reflexivity.
Qed.

(** ** The public methods *)

(** X7: before the layer is on a map, no method does anything.  With
    [this.map] still [null], [create] and [mode] return [undefined],
    [size] returns 0 and [all] the empty array, [removePolygon], [clear]
    and [cancel] return, and none of them changes the world or calls a
    helper. *)
Theorem methods_do_nothing_off_the_map (env : Imports) (this : DrawLayer.t)
  (w : World) :
  DrawLayer.this_map this = false ->
  (forall polygon options,
     DrawLayer.create env this polygon options w = Some (Ok None, w)) /\
  (forall polygon, DrawLayer.removePolygon this polygon w = Some (Ok tt, w)) /\
  DrawLayer.clear this w = Some (Ok tt, w) /\
  (forall m, DrawLayer.mode this m w = Some (Ok None, w)) /\
  DrawLayer.size this w = Some (Ok O, w) /\
  DrawLayer.all this w = Some (Ok [], w) /\
  DrawLayer.cancel env this w = Some (Ok tt, w).
Proof.
  intros Hmap.
  unfold DrawLayer.create, DrawLayer.removePolygon, DrawLayer.clear,
    DrawLayer.mode, DrawLayer.size, DrawLayer.all, DrawLayer.cancel.
  rewrite Hmap. cbn [negb]. repeat split.
Qed.

(** The theorem on a layer fresh from the constructor and a map that
    holds the square A from elsewhere. *)
Lemma methods_off_the_map_witness :
  exists layer,
    DrawLayer.constructor Grid.imports None = Ok layer /\
    DrawLayer.create Grid.imports layer (Grid.latLngsOf Grid.ringB) None
      (Grid.world [Grid.polygonA] 15)
      = Some (Ok None, Grid.world [Grid.polygonA] 15) /\
    DrawLayer.size layer (Grid.world [Grid.polygonA] 15)
      = Some (Ok O, Grid.world [Grid.polygonA] 15).
Proof.
  eexists. split; [reflexivity|].
  destruct (methods_do_nothing_off_the_map Grid.imports
              {| DrawLayer.this_options :=
                   spread (DrawLayer.defaultOptions Grid.imports)
                     (DrawLayer.allKeys (DrawLayer.defaultOptions Grid.imports));
                 DrawLayer.this_map := false |}
              (Grid.world [Grid.polygonA] 15) eq_refl)
    as (Hcreate & _ & _ & _ & Hsize & _).
  split; [apply Hcreate | exact Hsize].
Defined.

(** X8: [create] notifies once, after [createFor], and only when
    [createFor] returned.  On a layer that is on a map the log of a
    [create] is the call of [createFor], what [createFor] logs itself,
    and then the notification ['create']; when [createFor] throws, the
    error goes to the caller and there is no notification. *)
Theorem create_notifies_after_success (env : Imports) (this : DrawLayer.t)
  (polygon : list LatLng) (options : option Partial.t) (w : World) :
  DrawLayer.this_map this = true ->
  exists r w' events,
    DrawLayer.create env this polygon options w = Some (r, w') /\
    Forall quiet events /\
    log w' =
      log w ++
      CallCreateFor polygon
        (spread (DrawLayer.this_options this)
           (override DrawLayer.createDefault options)) false
      :: events ++
         match r with
         | Ok _ => [CallUpdateFor "create"]
         | Thrown _ => []
         end.
Proof.
  intros Hmap. unfold DrawLayer.create. rewrite Hmap. cbn [negb].
  unfold bind at 1.
  destruct (createFor_frame env polygon
              (spread (DrawLayer.this_options this)
                 (override DrawLayer.createDefault options)) false w)
    as (r & w1 & events & -> & _ & _ & _ & _ & Hlog & Hquiet).
  destruct r as [made|e].
  - eexists _, _, events. split; [reflexivity|]. split; [exact Hquiet|].
    cbn [log with_log]. rewrite Hlog, <- app_assoc. reflexivity.
  - eexists _, _, events. split; [reflexivity|]. split; [exact Hquiet|].
    rewrite Hlog, app_nil_r. reflexivity.
Qed.

(** The theorem on the grid layer and the empty map. *)
Lemma create_notifies_witness :
  exists r w' events,
    DrawLayer.create Grid.imports Grid.layer (Grid.latLngsOf Grid.ringA) None
      (Grid.world [] 15) = Some (r, w') /\
    Forall quiet events /\
    log w' =
      log (Grid.world [] 15) ++
      CallCreateFor (Grid.latLngsOf Grid.ringA)
        (spread (DrawLayer.this_options Grid.layer)
           (override DrawLayer.createDefault None)) false
      :: events ++
         match r with
         | Ok _ => [CallUpdateFor "create"]
         | Thrown _ => []
         end.
Proof.
  exact (create_notifies_after_success Grid.imports Grid.layer
           (Grid.latLngsOf Grid.ringA) None (Grid.world [] 15) eq_refl).
Defined.

(** X9: [removePolygon] and [clear] consult no mode and notify every
    time.  On a layer that is on a map, whatever the mode of the map is,
    [removePolygon] calls [removeFor] and then notifies ['remove'], also
    for a polygon that is not in the store (the store is then as it
    was); [clear] empties the store and notifies ['clear'], and a second
    [clear] notifies again. *)
Theorem removePolygon_and_clear_always_notify (this : DrawLayer.t) (w : World) :
  DrawLayer.this_map this = true ->
  (forall polygon,
     exists w',
       DrawLayer.removePolygon this polygon w = Some (Ok tt, w') /\
       polygons w' = setDelete polygon (polygons w) /\
       modes w' = modes w /\
       log w' = log w ++ [CallRemoveFor polygon; CallUpdateFor "remove"] /\
       ((forall q, In q (polygons w) -> Object_is q polygon = false) ->
        polygons w' = polygons w)) /\
  (exists w1 w2,
     DrawLayer.clear this w = Some (Ok tt, w1) /\
     polygons w1 = [] /\
     log w1 = log w ++ [CallUpdateFor "clear"] /\
     DrawLayer.size this w1 = Some (Ok O, w1) /\
     DrawLayer.clear this w1 = Some (Ok tt, w2) /\
     polygons w2 = [] /\
     log w2 = log w ++ [CallUpdateFor "clear"; CallUpdateFor "clear"]).
Proof.
  intros Hmap. split.
  - intros polygon. unfold DrawLayer.removePolygon. rewrite Hmap. cbn [negb].
    eexists. split; [reflexivity|].
    cbn [polygons modes log with_polygons with_log].
    split; [reflexivity|]. split; [reflexivity|]. split.
    + rewrite <- app_assoc. reflexivity.
    + intros Habsent. unfold setDelete.
      induction (polygons w) as [|q l IH]; [reflexivity|].
      simpl. rewrite (Habsent q (or_introl eq_refl)). simpl.
      rewrite IH; [reflexivity|]. intros r Hr. apply Habsent. right. exact Hr.
  - unfold DrawLayer.clear, DrawLayer.size. rewrite Hmap. cbn [negb].
    eexists _, _. split; [reflexivity|]. split; [reflexivity|].
    split; [reflexivity|]. split; [reflexivity|]. split; [reflexivity|].
    split; [reflexivity|].
    cbn [log with_polygons with_log]. rewrite <- app_assoc. reflexivity.
Qed.

(** The theorem on the grid: in the mode NONE, removing the square C,
    which is not in the store, leaves the square A there and notifies. *)
Lemma removePolygon_and_clear_witness :
  exists w',
    DrawLayer.removePolygon Grid.layer Grid.polygonC
      (Grid.world [Grid.polygonA] 0) = Some (Ok tt, w') /\
    polygons w' = [Grid.polygonA] /\
    log w' = [CallRemoveFor Grid.polygonC; CallUpdateFor "remove"].
Proof.
  destruct (removePolygon_and_clear_always_notify Grid.layer
              (Grid.world [Grid.polygonA] 0) eq_refl) as [Hremove _].
  destruct (Hremove Grid.polygonC) as (w' & Hrun & _ & _ & Hlog & Hsame).
  exists w'. split; [exact Hrun|]. split; [|exact Hlog].
  apply Hsame. intros q [<- | []]. reflexivity.
Defined.

(** X10: a layer starts empty and in the mode it was constructed with.
    After the constructor and [onAdd], the layer is on the map, the
    store of the map is empty whatever it held before, the cancel key is
    the empty function, and [mode()] returns the [mode] of the options:
    the one given to the constructor, or [ALL]. *)
Theorem onAdd_starts_empty_in_the_given_mode (env : Imports)
  (options : Partial.t) (w : World) :
  exists layer this w',
    DrawLayer.constructor env (Some options) = Ok layer /\
    DrawLayer.onAdd layer w = Some (Ok this, w') /\
    DrawLayer.this_map this = true /\
    DrawLayer.this_options this = DrawLayer.this_options layer /\
    polygons w' = [] /\
    cancelSlot w' = SlotNoop /\
    DrawLayer.size this w' = Some (Ok O, w') /\
    DrawLayer.all this w' = Some (Ok [], w') /\
    DrawLayer.mode this None w'
      = Some (Ok (Some (override (ALL env) (Partial.mode options))), w') /\
    DrawLayer.cancel env this w' = Some (Ok tt, w').
Proof.
  eexists _, _, _. split; [reflexivity|]. split; [reflexivity|].
  repeat split.
Qed.

(** ** The drag *)

Lemma mouseDown_run (env : Imports) (this : DrawLayer.t) (event : Point)
  (w : World) :
  bitAnd (modes w) (CREATE env) <> 0 ->
  DrawLayer.mouseDown env this event w =
  Some (Ok tt,
        with_cancelSlot (SlotSession (List.length (sessions w)))
          (with_sessions
             (sessions w ++
              [{| linePoints := [];
                  lastPoint :=
                    latLngToContainerPoint env
                      (containerPointToLatLng env event);
                  listening := true |}])
             w)).
Proof.
  intros Hon. unfold DrawLayer.mouseDown.
  unfold bind at 1. unfold gets at 1. cbn beta iota.
  destruct (Z.eqb_spec (bitAnd (modes w) (CREATE env)) 0) as [E | _];
    [contradiction|].
  reflexivity.
Qed.

(** X11: the moves of a drag.  Each move adds its point to the points
    of the drag and one segment to the preview, from where the pointer
    was to where it is, so the segments form one chain from the
    pointer-down point; the other drags, the store, the mode, the cancel
    key and the log are as they were. *)
Theorem mouseMoves_extend_the_drag (env : Imports) (sid : nat)
  (events : list Point) (w : World) (s : Session) :
  nth_error (sessions w) sid = Some s ->
  exists w',
    forEach (DrawLayer.mouseMove env sid) events w = Some (Ok tt, w') /\
    DrawLayer.linePointsOf sid w' =
      linePoints s ++ map (containerPointToLatLng env) events /\
    nth_error (sessions w') sid = Some (moved env s events) /\
    svg w' = svg w ++ segments (lastPoint s) events /\
    (forall j, j <> sid -> nth_error (sessions w') j = nth_error (sessions w) j) /\
    polygons w' = polygons w /\
    modes w' = modes w /\
    cancelSlot w' = cancelSlot w /\
    log w' = log w.
Proof.
  intros Hs. rewrite (mouseMoves_run env sid events w s Hs).
  eexists. split; [reflexivity|].
  assert (Hnth : nth_error (adjust sid (fun s0 => moved env s0 events) (sessions w))
                   sid = Some (moved env s events))
    by exact (adjust_nth (fun s0 => moved env s0 events) _ _ _ Hs).
  unfold DrawLayer.linePointsOf.
  cbn [sessions svg polygons modes cancelSlot log with_svg with_sessions].
  rewrite Hnth. do 3 (split; [reflexivity|]).
  split; [|repeat split].
  intros j Hj. apply adjust_other. congruence.
Qed.

(** The theorem on the grid: three moves after a pointer-down at the
    origin give three points and a chain of three segments. *)
Lemma mouseMoves_witness :
  exists w',
    forEach (DrawLayer.mouseMove Grid.imports 0)
      [{| x := 2; y := 0 |}; {| x := 2; y := 2 |}; {| x := 0; y := 2 |}]
      Grid.dragging = Some (Ok tt, w') /\
    DrawLayer.linePointsOf 0 w' =
      [{| lat := 0; lng := 2 |}; {| lat := 2; lng := 2 |}; {| lat := 2; lng := 0 |}] /\
    svg w' =
      [({| x := 0; y := 0 |}, {| x := 2; y := 0 |});
       ({| x := 2; y := 0 |}, {| x := 2; y := 2 |});
       ({| x := 2; y := 2 |}, {| x := 0; y := 2 |})].
Proof.
  destruct (mouseMoves_extend_the_drag Grid.imports 0
              [{| x := 2; y := 0 |}; {| x := 2; y := 2 |}; {| x := 0; y := 2 |}]
              Grid.dragging
              {| linePoints := []; lastPoint := {| x := 0; y := 0 |};
                 listening := true |} eq_refl)
    as (w' & Hrun & Hpoints & _ & Hsvg & _).
  exists w'. split; [exact Hrun|]. split; [exact Hpoints | exact Hsvg].
Defined.

(** X12: a click creates nothing, and still notifies.  A pointer-down
    in a mode with the CREATE bit, followed by the pointer-up with no
    move in between, does not call [createFor] and leaves the store and
    the identities as they were; it still sends the notification
    ['create'] and, with [leaveModeAfterCreate], still leaves the mode. *)
Theorem click_notifies_without_creating (env : Imports) (this : DrawLayer.t)
  (down : Point) (w : World) :
  DrawLayer.this_map this = true ->
  bitAnd (modes w) (CREATE env) <> 0 ->
  exists w',
    drag env this down [] w = Some (Ok tt, w') /\
    polygons w' = polygons w /\
    nextId w' = nextId w /\
    cancelSlot w' = SlotNoop /\
    log w' =
      log w ++
      CallUpdateFor "create" ::
      (if leaveModeAfterCreate (DrawLayer.this_options this)
       then [CallModeFor (bitXor (modes w) (CREATE env))]
       else []) /\
    modes w' =
      (if leaveModeAfterCreate (DrawLayer.this_options this)
       then bitXor (modes w) (CREATE env)
       else modes w).
Proof.
  intros Hmap Hon. unfold drag.
  unfold bind at 1. rewrite (mouseDown_run env this down w Hon).
  unfold bind at 1. cbn [forEach]. unfold ret at 1.
  rewrite (mouseUp_run env this _ _ Hmap).
  unfold DrawLayer.linePointsOf.
  cbn [sessions with_cancelSlot with_sessions].
  rewrite nth_error_app2, Nat.sub_diag by lia. cbn [nth_error linePoints].
  eexists. split; [reflexivity|].
  unfold finishDrag.
  destruct (leaveModeAfterCreate (DrawLayer.this_options this));
    repeat split; cbn; rewrite <- ?app_assoc; reflexivity.
Qed.

(** The theorem on the grid layer. *)
Lemma click_witness :
  exists w',
    drag Grid.imports Grid.layer {| x := 1; y := 1 |} [] (Grid.world [] 15)
      = Some (Ok tt, w') /\
    polygons w' = [] /\
    log w' = [CallUpdateFor "create"].
Proof.
  destruct (click_notifies_without_creating Grid.imports Grid.layer
              {| x := 1; y := 1 |} (Grid.world [] 15) eq_refl)
    as (w' & Hrun & Hstore & _ & _ & Hlog & _).
  - discriminate.
  - exists w'. split; [exact Hrun|]. split; [exact Hstore | exact Hlog].
Defined.

(** X13: what a drag hands to [createFor].  A pointer-down in a mode
    with the CREATE bit, at least one move and the pointer-up call
    [createFor] once: the log gains one call without [preventMutations],
    with the points of the moves in their order (the pointer-down point
    is not among them) and with the options of the instance unchanged,
    [concavePolygon] included, and no second such call follows;
    afterwards the cancel key is the empty function and the preview is
    empty, whether [createFor] returned or threw. *)
Theorem drag_creates_from_the_moves (env : Imports) (this : DrawLayer.t)
  (down first : Point) (others : list Point) (w : World) :
  DrawLayer.this_map this = true ->
  bitAnd (modes w) (CREATE env) <> 0 ->
  exists r w' events,
    drag env this down (first :: others) w = Some (r, w') /\
    log w' =
      log w ++
      CallCreateFor (map (containerPointToLatLng env) (first :: others))
        (DrawLayer.this_options this) false
      :: events /\
    Forall noFurtherCreate events /\
    cancelSlot w' = SlotNoop /\
    svg w' = [].
Proof.
  intros Hmap Hon. unfold drag.
  unfold bind at 1. rewrite (mouseDown_run env this down w Hon).
  set (s := {| linePoints := [];
               lastPoint :=
                 latLngToContainerPoint env (containerPointToLatLng env down);
               listening := true |}).
  set (w1 := with_cancelSlot (SlotSession (List.length (sessions w)))
               (with_sessions (sessions w ++ [s]) w)).
  assert (Hs : nth_error (sessions w1) (List.length (sessions w)) = Some s).
  { unfold w1. cbn [sessions with_cancelSlot with_sessions].
    rewrite nth_error_app2, Nat.sub_diag by lia. reflexivity. }
  unfold bind at 1.
  rewrite (mouseMoves_run env _ (first :: others) w1 s Hs).
  set (w2 := with_svg (svg w1 ++ segments (lastPoint s) (first :: others))
               (with_sessions
                  (adjust (List.length (sessions w))
                     (fun s0 => moved env s0 (first :: others)) (sessions w1))
                  w1)).
  assert (Hpoints : DrawLayer.linePointsOf (List.length (sessions w)) w2 =
                    linePoints s
                    ++ map (containerPointToLatLng env) (first :: others)).
  { unfold DrawLayer.linePointsOf, w2. cbn [sessions with_svg with_sessions].
    rewrite (adjust_nth (fun s0 => moved env s0 (first :: others)) _ _ _ Hs).
    reflexivity. }
  assert (Hlog2 : log w2 = log w1) by reflexivity.
  rewrite (mouseUp_run env this _ _ Hmap), Hpoints.
  cbn [linePoints s app map].
  destruct (createFor_calls env
              (containerPointToLatLng env first
               :: map (containerPointToLatLng env) others)
              (DrawLayer.this_options this)
              (closeDrag (List.length (sessions w)) w2))
    as (r & w3 & events & -> & Hslot & Hsvg & Hlog & Hcalls).
  assert (Hlog3 : log w3 =
                  log w ++
                  CallCreateFor
                    (containerPointToLatLng env first
                     :: map (containerPointToLatLng env) others)
                    (DrawLayer.this_options this) false :: events).
  { rewrite Hlog. cbn [log closeDrag with_svg with_sessions with_cancelSlot].
    rewrite Hlog2. reflexivity. }
  destruct r as [made|e].
  - unfold finishDrag.
    destruct (leaveModeAfterCreate (DrawLayer.this_options this)).
    + exists (Ok tt),
        (with_modes (bitXor (modes (logged (CallUpdateFor "create") w3)) (CREATE env))
           (logged (CallModeFor
                      (bitXor (modes (logged (CallUpdateFor "create") w3))
                         (CREATE env)))
              (logged (CallUpdateFor "create") w3))),
        (events ++ [CallUpdateFor "create";
                    CallModeFor
                      (bitXor (modes (logged (CallUpdateFor "create") w3))
                         (CREATE env))]).
      split; [reflexivity|].
      cbn [log cancelSlot svg with_modes with_log logged].
      rewrite Hlog3, Hslot, Hsvg, <- !app_assoc.
      split; [reflexivity|]. split; [|split; reflexivity].
      apply Forall_app. split; [exact Hcalls|].
      repeat (apply Forall_cons; [exact I|]). apply Forall_nil.
    + exists (Ok tt), (logged (CallUpdateFor "create") w3),
        (events ++ [CallUpdateFor "create"]).
      split; [reflexivity|].
      cbn [log cancelSlot svg with_modes with_log logged].
      rewrite Hlog3, Hslot, Hsvg, <- !app_assoc.
      split; [reflexivity|]. split; [|split; reflexivity].
      apply Forall_app. split; [exact Hcalls|].
      repeat (apply Forall_cons; [exact I|]). apply Forall_nil.
  - exists (Thrown e), w3, events. split; [reflexivity|].
    rewrite Hlog3, Hslot, Hsvg. repeat split. exact Hcalls.
Qed.

(** The theorem on the grid: a drag around the square A hands the three
    points of its moves to [createFor], once, with the instance's
    [concavePolygon] still [true]. *)
Lemma drag_creates_witness :
  exists r w' events,
    drag Grid.imports Grid.layer {| x := 0; y := 0 |}
      [{| x := 2; y := 0 |}; {| x := 2; y := 2 |}; {| x := 0; y := 2 |}]
      (Grid.world [] 15) = Some (r, w') /\
    log w' =
      CallCreateFor
        [{| lat := 0; lng := 2 |}; {| lat := 2; lng := 2 |};
         {| lat := 2; lng := 0 |}]
        (DrawLayer.defaultOptions Grid.imports) false
      :: events /\
    Forall noFurtherCreate events /\
    concavePolygon (DrawLayer.defaultOptions Grid.imports) = true.
Proof.
  destruct (drag_creates_from_the_moves Grid.imports Grid.layer
              {| x := 0; y := 0 |} {| x := 2; y := 0 |}
              [{| x := 2; y := 2 |}; {| x := 0; y := 2 |}]
              (Grid.world [] 15) eq_refl)
    as (r & w' & events & Hrun & Hlog & Hcalls & _).
  - discriminate.
  - exists r, w', events. split; [exact Hrun|]. split; [exact Hlog|].
    split; [exact Hcalls | reflexivity].
Defined.

Lemma mouseUp_modes (env : Imports) (this : DrawLayer.t) (sid : nat)
  (w w' : World) :
  DrawLayer.this_map this = true ->
  DrawLayer.mouseUp env this sid true w = Some (Ok tt, w') ->
  modes w' =
    (if leaveModeAfterCreate (DrawLayer.this_options this)
     then bitXor (modes w) (CREATE env)
     else modes w).
Proof.
  intros Hmap. rewrite (mouseUp_run env this sid w Hmap).
  assert (Hfinish : forall w0, modes w0 = modes w ->
            modes (finishDrag env this w0) =
            (if leaveModeAfterCreate (DrawLayer.this_options this)
             then bitXor (modes w) (CREATE env)
             else modes w)).
  { intros w0 H0. unfold finishDrag.
    destruct (leaveModeAfterCreate (DrawLayer.this_options this)); cbn;
      rewrite H0; reflexivity. }
  destruct (DrawLayer.linePointsOf sid w) as [|point points].
  - intros H. injection H as <-. apply Hfinish. reflexivity.
  - destruct (createFor_frame env (point :: points)
                (DrawLayer.this_options this) false (closeDrag sid w))
      as (r & w1 & events & -> & Hmodes & _).
    destruct r as [made|e]; [|discriminate].
    intros H. injection H as <-. apply Hfinish. exact Hmodes.
Qed.

(** X14: [leaveModeAfterCreate] flips the CREATE bit.  With the option
    on and CREATE a single bit, a pointer-up that returns leaves the
    mode as [mode ^ CREATE]: if the bit was still set it is now clear,
    and the next pointer-down is ignored; if the mode had lost the bit
    while the drag was going on, the pointer-up sets it again. *)
Theorem leaveModeAfterCreate_flips_the_create_bit (env : Imports)
  (this : DrawLayer.t) (sid : nat) (w w' : World) (k : Z) :
  DrawLayer.this_map this = true ->
  leaveModeAfterCreate (DrawLayer.this_options this) = true ->
  CREATE env = 2 ^ k -> 0 <= k < 31 ->
  DrawLayer.mouseUp env this sid true w = Some (Ok tt, w') ->
  modes w' = bitXor (modes w) (CREATE env) /\
  (bitAnd (modes w) (CREATE env) <> 0 ->
   bitAnd (modes w') (CREATE env) = 0 /\
   forall event, DrawLayer.mouseDown env this event w' = Some (Ok tt, w')) /\
  (bitAnd (modes w) (CREATE env) = 0 ->
   bitAnd (modes w') (CREATE env) <> 0).
Proof.
  intros Hmap Hleave Hbit Hk Hrun.
  pose proof (mouseUp_modes env this sid w w' Hmap Hrun) as Hmodes.
  rewrite Hleave in Hmodes.
  assert (Hc : 0 <= CREATE env < 2 ^ 31).
  { rewrite Hbit. split; [apply Z.pow_nonneg; lia | apply Z.pow_lt_mono_r; lia]. }
  assert (Hpos : CREATE env <> 0).
  { rewrite Hbit. apply Z.pow_nonzero; lia. }
  pose proof (bitAnd_bitXor (modes w) (CREATE env) Hc) as Hflip.
  rewrite <- Hmodes in Hflip.
  split; [exact Hmodes|]. split.
  - intros Hon.
    assert (Hset : bitAnd (modes w) (CREATE env) = CREATE env).
    { destruct (bitAnd_single_bit (modes w) k Hk) as [H0 | H1];
        rewrite <- Hbit in *; [contradiction | exact H1]. }
    assert (Hoff : bitAnd (modes w') (CREATE env) = 0).
    { rewrite Hflip, Hset. apply Z.lxor_nilpotent. }
    split; [exact Hoff|].
    intros event. unfold DrawLayer.mouseDown.
    unfold bind at 1. unfold gets at 1. cbn beta iota.
    rewrite Hoff. reflexivity.
  - intros Hoff. rewrite Hflip, Hoff, Z.lxor_0_l. exact Hpos.
Qed.

(** The theorem on the grid, where CREATE is the bit 0: after a click on
    the leaving layer in the mode ALL (15) the mode is 14, and a
    pointer-down does nothing. *)
Lemma leaveModeAfterCreate_witness :
  exists w',
    DrawLayer.mouseUp Grid.imports Grid.leavingLayer 0 true Grid.dragging
      = Some (Ok tt, w') /\
    modes w' = 14 /\
    DrawLayer.mouseDown Grid.imports Grid.leavingLayer {| x := 5; y := 5 |} w'
      = Some (Ok tt, w').
Proof.
  destruct (DrawLayer.mouseUp Grid.imports Grid.leavingLayer 0 true Grid.dragging)
    as [[[[]|e] w']|] eqn:Hrun; try (vm_compute in Hrun; discriminate Hrun).
  destruct (leaveModeAfterCreate_flips_the_create_bit Grid.imports
              Grid.leavingLayer 0 Grid.dragging w' 0 eq_refl eq_refl eq_refl)
    as (Hmodes & Hon & _); [lia | exact Hrun |].
  exists w'. split; [reflexivity|]. split; [exact Hmodes|].
  apply Hon. discriminate.
Defined.

(** X15: a second pointer-down does not end the first drag, and [cancel]
    then reaches only the second.  After two pointer-downs in a mode
    with the CREATE bit and a [cancel], the cancel key is the empty
    function, the second drag has stopped listening, and the first drag
    is still listening, out of reach of any further [cancel]. *)
Theorem cancel_reaches_the_last_drag_only (env : Imports) (this : DrawLayer.t)
  (first second : Point) (w : World) :
  DrawLayer.this_map this = true ->
  bitAnd (modes w) (CREATE env) <> 0 ->
  exists w' s1 s2,
    (DrawLayer.mouseDown env this first ;;;
     DrawLayer.mouseDown env this second ;;;
     DrawLayer.cancel env this) w = Some (Ok tt, w') /\
    cancelSlot w' = SlotNoop /\
    nth_error (sessions w') (List.length (sessions w)) = Some s1 /\
    listening s1 = true /\
    nth_error (sessions w') (S (List.length (sessions w))) = Some s2 /\
    listening s2 = false /\
    DrawLayer.cancel env this w' = Some (Ok tt, w') /\
    polygons w' = polygons w.
Proof.
  intros Hmap Hon.
  unfold bind at 1. rewrite (mouseDown_run env this first w Hon).
  unfold bind at 1. rewrite mouseDown_run by exact Hon.
  unfold DrawLayer.cancel. rewrite Hmap. cbn [negb].
  unfold bind at 1. unfold gets at 1.
  cbn [cancelSlot sessions with_cancelSlot with_sessions].
  unfold DrawLayer.mouseUp, bind, modify, gets, ret.
  cbn [cancelSlot sessions svg polygons with_cancelSlot with_sessions with_svg].
  rewrite length_app. cbn [List.length].
  replace (List.length (sessions w) + 1)%nat
    with (List.length
            (sessions w ++
             [{| linePoints := [];
                 lastPoint :=
                   latLngToContainerPoint env (containerPointToLatLng env first);
                 listening := true |}]))
    by (rewrite length_app; reflexivity).
  rewrite adjust_new.
  eexists _, _, _. split; [reflexivity|].
  cbn [cancelSlot sessions svg polygons with_cancelSlot with_sessions with_svg].
  split; [reflexivity|]. split.
  { rewrite nth_error_app1 by (rewrite length_app; simpl; lia).
    rewrite nth_error_app2, Nat.sub_diag by lia. reflexivity. }
  split; [reflexivity|]. split.
  { rewrite nth_error_app2 by (rewrite length_app; simpl; lia).
    rewrite length_app. cbn [List.length].
    replace (S (List.length (sessions w)) - (List.length (sessions w) + 1))%nat
      with O by lia.
    reflexivity. }
  repeat split.
Qed.

(** The theorem on the grid layer and the empty map. *)
Lemma cancel_reaches_witness :
  exists w',
    (DrawLayer.mouseDown Grid.imports Grid.layer {| x := 0; y := 0 |} ;;;
     DrawLayer.mouseDown Grid.imports Grid.layer {| x := 9; y := 9 |} ;;;
     DrawLayer.cancel Grid.imports Grid.layer) (Grid.world [] 15)
      = Some (Ok tt, w') /\
    map listening (sessions w') = [true; false] /\
    cancelSlot w' = SlotNoop.
Proof.
  destruct (cancel_reaches_the_last_drag_only Grid.imports Grid.layer
              {| x := 0; y := 0 |} {| x := 9; y := 9 |} (Grid.world [] 15)
              eq_refl)
    as (w' & s1 & s2 & Hrun & Hslot & _); [discriminate|].
  exists w'. split; [exact Hrun|]. split; [|exact Hslot].
  vm_compute in Hrun. injection Hrun as <-. reflexivity.
Defined.

(** X16: a pointer-up always ends its drag, and a failed creation is not
    notified.  Whatever [createFor] does, after the pointer-up the
    cancel key is the empty function, the preview is empty and the drag
    no longer listens.  When [createFor] throws, the error leaves
    [mouseUp]: no notification ['create'] is sent and the mode is not
    left, even with [leaveModeAfterCreate]. *)
Theorem mouseUp_ends_the_drag_whatever_happens (env : Imports)
  (this : DrawLayer.t) (sid : nat) (w : World) :
  DrawLayer.this_map this = true ->
  exists r w' events,
    DrawLayer.mouseUp env this sid true w = Some (r, w') /\
    cancelSlot w' = SlotNoop /\
    svg w' = [] /\
    (forall s, nth_error (sessions w') sid = Some s -> listening s = false) /\
    log w' = log w ++ events /\
    (forall e, r = Thrown e -> Forall quiet events /\ modes w' = modes w).
Proof.
  intros Hmap. rewrite (mouseUp_run env this sid w Hmap).
  assert (Hclosed : forall w0,
            cancelSlot w0 = SlotNoop -> svg w0 = [] ->
            sessions w0 = adjust sid DrawLayer.stopListening (sessions w) ->
            cancelSlot (finishDrag env this w0) = SlotNoop /\
            svg (finishDrag env this w0) = [] /\
            (forall s, nth_error (sessions (finishDrag env this w0)) sid = Some s ->
                       listening s = false)).
  { intros w0 Hslot Hsvg Hsessions. unfold finishDrag.
    destruct (leaveModeAfterCreate (DrawLayer.this_options this));
      cbn [cancelSlot svg sessions with_modes with_log logged];
      (split; [exact Hslot|]); (split; [exact Hsvg|]);
      intros s Hs; rewrite Hsessions in Hs;
      apply nth_error_adjust in Hs as (s0 & _ & ->); reflexivity. }
  assert (Htail : forall w0, exists tail,
            log (finishDrag env this w0) = log w0 ++ tail).
  { intros w0. unfold finishDrag.
    destruct (leaveModeAfterCreate (DrawLayer.this_options this));
      eexists; cbn [log with_modes with_log logged];
      rewrite <- ?app_assoc; reflexivity. }
  destruct (DrawLayer.linePointsOf sid w) as [|point points].
  - destruct (Hclosed (closeDrag sid w) eq_refl eq_refl eq_refl)
      as (Hslot & Hsvg & Hlisten).
    destruct (Htail (closeDrag sid w)) as [tail Hlog].
    exists (Ok tt), (finishDrag env this (closeDrag sid w)), tail.
    split; [reflexivity|].
    split; [exact Hslot|]. split; [exact Hsvg|]. split; [exact Hlisten|].
    split; [exact Hlog | intros e He; discriminate He].
  - destruct (createFor_frame env (point :: points)
                (DrawLayer.this_options this) false (closeDrag sid w))
      as (r & w1 & events & -> & Hmodes & Hslot1 & Hsessions1 & Hsvg1 & Hlog1
          & Hquiet).
    destruct r as [made|e].
    + destruct (Hclosed w1 Hslot1 Hsvg1 Hsessions1) as (Hslot & Hsvg & Hlisten).
      destruct (Htail w1) as [tail Hlog].
      exists (Ok tt), (finishDrag env this w1),
        (CallCreateFor (point :: points) (DrawLayer.this_options this) false
         :: events ++ tail).
      split; [reflexivity|].
      split; [exact Hslot|]. split; [exact Hsvg|]. split; [exact Hlisten|].
      split; [|intros e He; discriminate He].
      rewrite Hlog, Hlog1.
      cbn [log closeDrag with_svg with_sessions with_cancelSlot].
      rewrite <- app_assoc. reflexivity.
    + exists (Thrown e), w1,
        (CallCreateFor (point :: points) (DrawLayer.this_options this) false
         :: events).
      split; [reflexivity|]. split; [exact Hslot1|]. split; [exact Hsvg1|].
      split.
      { intros s Hs. rewrite Hsessions1 in Hs.
        cbn [sessions closeDrag with_svg with_sessions with_cancelSlot] in Hs.
        apply nth_error_adjust in Hs as (s0 & _ & ->). reflexivity. }
      split; [exact Hlog1|].
      intros e' _. split; [constructor; [exact I | exact Hquiet] | exact Hmodes].
Qed.

(** The theorem on the grid: a drag of one move gives [createFor] too
    few points; the pointer-up throws, the drag is over all the same,
    and nothing is notified although the layer leaves the mode after a
    creation. *)
Lemma mouseUp_ends_the_drag_witness :
  exists w' events,
    DrawLayer.mouseUp Grid.imports Grid.leavingLayer 0 true Grid.shortDrag
      = Some (Thrown InsufficientPointsError, w') /\
    cancelSlot w' = SlotNoop /\
    log w' = events /\
    Forall quiet events /\
    modes w' = 15.
Proof.
  destruct (mouseUp_ends_the_drag_whatever_happens Grid.imports
              Grid.leavingLayer 0 Grid.shortDrag eq_refl)
    as (r & w' & events & Hrun & Hslot & _ & _ & Hlog & Hthrown).
  assert (Hr : r = Thrown InsufficientPointsError).
  { vm_compute in Hrun. injection Hrun as <- _. reflexivity. }
  subst r. destruct (Hthrown _ eq_refl) as [Hquiet Hmodes].
  exists w', events. split; [exact Hrun|]. split; [exact Hslot|].
  split; [exact Hlog|]. split; [exact Hquiet | exact Hmodes].
Defined.

(** ** One polygon that does not convert *)

Lemma reduce_thrown_stays {A B : Type} (f : B -> A -> Result B) (l : list A)
  (acc : B) (a : B) :
  reduce f l acc = Ok a ->
  forall x, In x l -> exists before after, f before x = Ok after.
Proof.
  revert acc; induction l as [|y l IH]; intros acc H x Hx; simpl in *;
    [contradiction|].
  destruct (f acc y) as [acc'|e] eqn:Hy; simpl in H; [|discriminate].
  destruct Hx as [<- | Hx]; [eauto | exact (IH acc' H x Hx)].
Qed.

(** X17: one polygon without a turf polygon stops every merge.  The
    analysis converts every polygon of the list, so it returns only if
    each of them has Clipper points and a turf polygon; when one polygon
    of the list has no turf polygon, the analysis throws and [merge],
    whatever [createFor] and [removeFor] are, throws with it before
    calling either. *)
Theorem merge_needs_every_polygon_to_convert (env : Imports)
  (anyCreateFor : list LatLng -> DrawLayerOptions -> bool -> M (list Polygon))
  (anyRemoveFor : Polygon -> M unit)
  (ps : list Polygon) (options : DrawLayerOptions) (w : World) :
  (forall a, analyse env ps = Ok a ->
     forall p, In p ps ->
       exists pts tp,
         latLngsToClipperPoints env (getLatLngs0 p) = Ok pts /\
         toTurfPolygon env (getLatLngs0 p) = Ok tp) /\
  (forall p, In p ps ->
     (forall tp, toTurfPolygon env (getLatLngs0 p) <> Ok tp) ->
     exists e,
       analyse env ps = Thrown e /\
       merge env anyCreateFor anyRemoveFor ps options w =
       Some (Thrown e, logged (CallMerge ps) w)).
Proof.
  assert (Hall : forall a, analyse env ps = Ok a ->
            forall p, In p ps ->
              exists pts tp,
                latLngsToClipperPoints env (getLatLngs0 p) = Ok pts /\
                toTurfPolygon env (getLatLngs0 p) = Ok tp).
  { intros a Ha p Hp.
    destruct (reduce_thrown_stays _ _ _ _ Ha p Hp) as (before & after & H1).
    unfold analyse1 in H1.
    destruct (latLngsToClipperPoints env (getLatLngs0 p)) as [pts|e];
      cbn [bindR] in H1; [|discriminate].
    destruct (toTurfPolygon env (getLatLngs0 p)) as [tp|e];
      cbn [bindR] in H1; [|discriminate].
    eauto. }
  split; [exact Hall|].
  intros p Hp Hnone.
  destruct (analyse env ps) as [a|e] eqn:Ha.
  - destruct (Hall a eq_refl p Hp) as (pts & tp & _ & Htp).
    exfalso. exact (Hnone tp Htp).
  - exists e. split; [reflexivity|].
    unfold merge. unfold bind at 1. unfold tell, modify. cbn beta iota.
    unfold bind at 1. unfold liftR at 1. rewrite Ha. reflexivity.
Qed.

(** The theorem on the grid: a polygon whose ring has no point has no
    turf polygon ([x[0]] is [undefined], and [createPolygon] reads a
    property of it); with it in the list, [merge] throws the
    [TypeError]. *)
Lemma merge_needs_every_polygon_witness :
  toTurfPolygon Grid.imports (getLatLngs0 (Grid.pointless 1)) = Thrown TypeError /\
  merge Grid.imports (createFor Grid.imports 1) removeFor
    [Grid.polygonA; Grid.pointless 1] (DrawLayer.defaultOptions Grid.imports)
    (Grid.world [Grid.polygonA; Grid.pointless 1] 15)
  = Some (Thrown TypeError,
          logged (CallMerge [Grid.polygonA; Grid.pointless 1])
            (Grid.world [Grid.polygonA; Grid.pointless 1] 15)).
Proof.
  split; [vm_compute; reflexivity|].
  destruct (merge_needs_every_polygon_to_convert Grid.imports
              (createFor Grid.imports 1) removeFor
              [Grid.polygonA; Grid.pointless 1]
              (DrawLayer.defaultOptions Grid.imports)
              (Grid.world [Grid.polygonA; Grid.pointless 1] 15)) as [_ Hstop].
  destruct (Hstop (Grid.pointless 1)) as (e & Hthrown & Hrun).
  - simpl. auto.
  - intros tp Htp. vm_compute in Htp. discriminate Htp.
  - assert (e = TypeError) as ->
      by (vm_compute in Hthrown; injection Hthrown as <-; reflexivity).
    exact Hrun.
Defined.

(** ** Where the intersection test throws *)

(** X18: where the intersection test throws, [merge] gets past its
    analysis only on a list of one object.  The first turn of the
    [reduce] tests the first polygon of the list against the first
    object that is not itself; so with two different objects in the
    list and a test that throws on every pair of features, the analysis
    throws, and [merge], whatever [createFor] and [removeFor] are, throws
    with it and has called neither. *)
Theorem merge_throws_where_the_test_throws (env : Imports)
  (anyCreateFor : list LatLng -> DrawLayerOptions -> bool -> M (list Polygon))
  (anyRemoveFor : Polygon -> M unit)
  (ps : list Polygon) (options : DrawLayerOptions) (w : World)
  (p q : Polygon) :
  In p ps -> In q ps -> Object_is q p = false ->
  (forall a b, exists e, isIntersecting env a b = Thrown e) ->
  exists e,
    analyse env ps = Thrown e /\
    merge env anyCreateFor anyRemoveFor ps options w =
    Some (Thrown e, logged (CallMerge ps) w).
Proof.
  intros Hp Hq Hne Hthrows.
  destruct ps as [|h t]; [destruct Hp|].
  assert (Hother : exists o others,
            filter (fun item => negb (Object_is item h)) (h :: t) = o :: others).
  { assert (Hin : exists z, In z (h :: t) /\ Object_is z h = false).
    { destruct (Object_is p h) eqn:Ep; [|eauto].
      exists q. split; [exact Hq|].
      unfold Object_is in *. apply Nat.eqb_eq in Ep. apply Nat.eqb_neq in Hne.
      apply Nat.eqb_neq. congruence. }
    destruct Hin as (z & Hz & Hzh).
    assert (Hzin : In z (filter (fun item => negb (Object_is item h)) (h :: t))).
    { apply filter_In. split; [exact Hz|]. rewrite Hzh. reflexivity. }
    destruct (filter (fun item => negb (Object_is item h)) (h :: t))
      as [|o others]; [destruct Hzin | eauto]. }
  destruct Hother as (o & others & Hfilter).
  assert (Hturn : forall acc, exists e, analyse1 env (h :: t) acc h = Thrown e).
  { intros acc. unfold analyse1.
    destruct (latLngsToClipperPoints env (getLatLngs0 h)) as [points|e];
      cbn [bindR]; [|eauto].
    destruct (toTurfPolygon env (getLatLngs0 h)) as [turfPolygon|e];
      cbn [bindR]; [|eauto].
    unfold intersectsOthers. rewrite Hfilter. cbn [some].
    destruct (toTurfPolygon env (getLatLngs0 o)) as [otherTurf|e];
      cbn [bindR]; [|eauto].
    destruct (Hthrows turfPolygon otherTurf) as [e ->]. cbn [bindR]. eauto. }
  destruct (Hturn {| intersecting := []; rest := []; intersectingPolygons := [] |})
    as [e He].
  assert (Ha : analyse env (h :: t) = Thrown e).
  { unfold analyse. cbn [reduce]. rewrite He. reflexivity. }
  exists e. split; [exact Ha|].
  unfold merge. unfold bind at 1. unfold tell, modify. cbn beta iota.
  unfold bind at 1. unfold liftR at 1. rewrite Ha. reflexivity.
Qed.

(** The theorem on the grid, with the squares A and B. *)
Lemma merge_throws_witness :
  merge Grid.imports (createFor Grid.imports 1) removeFor
    [Grid.polygonA; Grid.polygonB] (DrawLayer.defaultOptions Grid.imports)
    (Grid.world [Grid.polygonA; Grid.polygonB] 15)
  = Some (Thrown LibraryError,
          logged (CallMerge [Grid.polygonA; Grid.polygonB])
            (Grid.world [Grid.polygonA; Grid.polygonB] 15)).
Proof.
  destruct (merge_throws_where_the_test_throws Grid.imports
              (createFor Grid.imports 1) removeFor
              [Grid.polygonA; Grid.polygonB]
              (DrawLayer.defaultOptions Grid.imports)
              (Grid.world [Grid.polygonA; Grid.polygonB] 15)
              Grid.polygonA Grid.polygonB)
    as (e & Hthrown & Hrun).
  - simpl. auto.
  - simpl. auto.
  - reflexivity.
  - intros a b. exists LibraryError. reflexivity.
  - assert (e = LibraryError) as ->
      by (vm_compute in Hthrown; injection Hthrown as <-; reflexivity).
    exact Hrun.
Defined.
